(** * Spilot agent system

    A shallow embedding of the Go package [internal/agent] of Spilot: the
    orchestrator ([system.go]), the four agents ([planning], [file.go],
    [terminal.go], [debug]), the file manager ([filemanager.go]) and the
    command executor ([commandexecutor.go]), followed by the properties of
    the orchestration engine.

    Conventions of the embedding.
    - A Go [error] is its message ([err.Error()]); a nil error is [None].
    - A function returning [(T, error)] with exactly one of the two set
      returns [Res T]; where both may be set the pair is kept.
    - A method with side effects takes the [World] and returns the new one.
    - A [*Task] is passed by value and the mutated task is returned; a
      slice that holds the same task object twice is not represented.
    - Calls of the zap logger are not modelled.
    - Of the task queue, the loop of its consumer ([processTasks]) is
      modelled over the tasks received; the channel and the interleaving
      with other goroutines ([QueueTask]) are not. *)

From Stdlib Require Import ZArith.
From stdpp Require Import base option list strings gmap pretty.

Local Open Scope string_scope.
Local Open Scope list_scope.

(** ** Errors and results *)

Abbreviation error := string (only parsing).

Inductive Res (A : Type) : Type :=
| Ok (a : A)
| Err (e : error).
Arguments Ok {A} a.
Arguments Err {A} e.

(** The double quote character, for messages and prompts that contain it. *)
Definition dq : string := String (Ascii.ascii_of_nat 34) EmptyString.
Definition quoted (s : string) : string := dq +:+ s +:+ dq.

(** ** types.go *)

Abbreviation AgentType := string (only parsing).

Definition PlanningAgent : AgentType := "planning".
Definition FileAgent : AgentType := "file".
Definition TerminalAgent : AgentType := "terminal".
Definition DebugAgent : AgentType := "debug".

Inductive TaskStatus : Type :=
| TaskPending
| TaskRunning
| TaskCompleted
| TaskFailed.

Record ProjectStructure : Type := {
  Folders : list string;
  StructureFiles : list string;
}.

Record ProjectFile : Type := {
  FilePath : string;
  FileContent : string;
}.

Record ProjectPlan : Type := {
  PlanName : string;
  PlanDescription : string;
  Structure : ProjectStructure;
  TechStack : gmap string string;
  Setup : list string;
  Dependencies : gmap string (list string);
  PlanFiles : list ProjectFile;
}.

(** The dynamically typed values ([interface{}]) found in payloads. *)
Inductive Value : Type :=
| VString (s : string)
| VBool (b : bool)
| VNumber (z : Z)
| VNull
| VPlan (p : ProjectPlan).

(** The type assertion [m[k].(string)]: the string and [ok]. *)
Definition as_string (v : option Value) : option string :=
  match v with
  | Some (VString s) => Some s
  | _ => None
  end.

Record TaskResult : Type := {
  Success : bool;
  ResultData : gmap string Value;
  Error : string;
}.

Record Task : Type := {
  ID : string;
  Type_ : AgentType;
  Description : string;
  Data : gmap string Value;
  Status : TaskStatus;
  CreatedAt : Z;
  UpdatedAt : Z;
  Result : option TaskResult;
}.

Definition set_Status (st : TaskStatus) (t : Task) : Task :=
  {| ID := ID t; Type_ := Type_ t; Description := Description t;
     Data := Data t; Status := st; CreatedAt := CreatedAt t;
     UpdatedAt := UpdatedAt t; Result := Result t |}.

Definition set_UpdatedAt (now : Z) (t : Task) : Task :=
  {| ID := ID t; Type_ := Type_ t; Description := Description t;
     Data := Data t; Status := Status t; CreatedAt := CreatedAt t;
     UpdatedAt := now; Result := Result t |}.

Definition set_Result (r : TaskResult) (t : Task) : Task :=
  {| ID := ID t; Type_ := Type_ t; Description := Description t;
     Data := Data t; Status := Status t; CreatedAt := CreatedAt t;
     UpdatedAt := UpdatedAt t; Result := Some r |}.

Record Command : Type := {
  CmdID : string;
  CmdCommand : string;
  WorkingDir : string;
  CmdStatus : string;
  Output : string;
  CmdError : string;
  CmdCreatedAt : Z;
}.

Record ChatCompletionMessage : Type := {
  Role : string;
  Content : string;
}.

Definition ChatMessageRoleSystem : string := "system".
Definition ChatMessageRoleUser : string := "user".

(** ** The world outside the package *)

(** What the package does to the outside, in order. *)
Inductive IOEvent : Type :=
| LLMChat (messages : list ChatCompletionMessage)
| LLMAnalyzeError (errorOutput fileContent : string)
| LLMGenerateCommand (instruction : string)
| LLMPlanProject (description : string)
| ShRun (command dir : string).

(** An error of package [os]: its text and whether [os.IsNotExist] holds. *)
Record OsError : Type := {
  oserr_text : string;
  oserr_not_exist : bool;
}.

(** The error of [cmd.Run]: the process ran and exited with a non-zero
    status, or it could not be started at all. *)
Inductive RunError : Type :=
| ExitError (code : nat)
| StartError (msg : string).

Definition RunError_Error (e : RunError) : string :=
  match e with
  | ExitError code => "exit status " +:+ pretty code
  | StartError msg => msg
  end.

Record ProcResult (S : Type) : Type := {
  pr_stdout : string;
  pr_stderr : string;
  pr_err : option RunError;
  pr_os : S;
}.
Arguments pr_stdout {S} _.
Arguments pr_stderr {S} _.
Arguments pr_err {S} _.
Arguments pr_os {S} _.

(** The Go standard library and the operating system, as far as the package
    calls them. [OsState] is the state of the machine (file tree included);
    [cmd_Run os command dir] is [sh -c command] run in [dir]. *)
Record GoRuntime : Type := {
  OsState : Type;
  strings_ToLower : string -> string;
  strings_TrimSpace : string -> string;
  filepath_Join : string -> string -> string;
  filepath_Dir : string -> string;
  json_Unmarshal : string -> Res ProjectPlan;
  os_Stat : OsState -> string -> option OsError;
  os_MkdirAll : OsState -> string -> option error * OsState;
  os_Create : OsState -> string -> option error * OsState;
  file_WriteString : OsState -> string -> string -> option error * OsState;
  os_WriteFile : OsState -> string -> string -> option error * OsState;
  os_Remove : OsState -> string -> option error * OsState;
  os_ReadFile : OsState -> string -> Res string;
  cmd_Run : OsState -> string -> string -> ProcResult OsState;
}.

(** [os.IsNotExist(err)]; false on a nil error. *)
Definition os_IsNotExist (err : option OsError) : bool :=
  match err with
  | Some e => oserr_not_exist e
  | None => false
  end.

(** The interface [LLMClient], restricted to the methods the agents call.
    An answer may depend on everything that happened before (the first
    argument) and on the request. *)
Record LLMClient : Type := {
  Chat : list IOEvent -> list ChatCompletionMessage -> Res string;
  AnalyzeError : list IOEvent -> string -> string -> Res string;
  GenerateCommand : list IOEvent -> string -> Res string;
  PlanProject : list IOEvent -> string -> Res string;
}.

(** ** Byte strings: the functions of package [strings] that are exact on bytes *)

Definition strings_HasPrefix (s prefix : string) : bool := String.prefix prefix s.

Fixpoint strings_Contains (s substr : string) : bool :=
  strings_HasPrefix s substr ||
  match s with
  | EmptyString => false
  | String _ rest => strings_Contains rest substr
  end.

Fixpoint drop_bytes (n : nat) (s : string) : string :=
  match n, s with
  | S n', String _ rest => drop_bytes n' rest
  | _, _ => s
  end.

Definition strings_TrimPrefix (s prefix : string) : string :=
  if strings_HasPrefix s prefix then drop_bytes (String.length prefix) s else s.

(** ** Prompt texts *)

Definition nl : string := String (Ascii.ascii_of_nat 10) EmptyString.
Definition lines (l : list string) : string := String.concat nl l.

(** [SystemPrompt] of system.go. *)
Definition SystemPrompt : string :=
  "You are an assistant that helps with code and terminal automation. Only suggest or execute terminal commands if the user explicitly asks for it (e.g., "
  +:+ quoted "run this in terminal" +:+ ", " +:+ quoted "execute" +:+ ", "
  +:+ quoted "open terminal and..."
  +:+ "). For all other requests, provide code, explanations, or other help as appropriate. Never assume a command should be run unless the user is clear.".

(** The prompt of [createGenericPlan]. *)
Definition genericPlanPrompt (request : string) : string :=
  lines [
    SystemPrompt;
    "User request: " +:+ quoted request;
    "Generate a JSON array of tasks. Each task must have a " +:+ quoted "type"
      +:+ " (e.g., " +:+ quoted "file" +:+ ", " +:+ quoted "terminal" +:+ "), a "
      +:+ quoted "description" +:+ ", and a " +:+ quoted "data"
      +:+ " object with necessary parameters.";
    "For file tasks, data should include " +:+ quoted "operation" +:+ ", "
      +:+ quoted "path" +:+ ", and " +:+ quoted "content" +:+ ".";
    "For terminal tasks, data should include " +:+ quoted "instruction" +:+ ".";
    "";
    "Example Request: "
      +:+ quoted "create a new directory called 'server' and inside it, create a file named 'main.go' with a basic hello world program";
    "Example Response:";
    "[";
    "  {";
    "    " +:+ quoted "type" +:+ ": " +:+ quoted "file" +:+ ",";
    "    " +:+ quoted "description" +:+ ": " +:+ quoted "Create main.go" +:+ ",";
    "    " +:+ quoted "data" +:+ ": {";
    "      " +:+ quoted "operation" +:+ ": " +:+ quoted "create" +:+ ",";
    "      " +:+ quoted "path" +:+ ": " +:+ quoted "server/main.go" +:+ ",";
    "      " +:+ quoted "content" +:+ ": " +:+ dq +:+ "package main\n\nimport \"
      +:+ dq +:+ "fmt\" +:+ dq +:+ "\n\nfunc main() {\n\tfmt.Println(\" +:+ dq
      +:+ "hello world\" +:+ dq +:+ ")\n}" +:+ dq;
    "    }";
    "  }";
    "]"
  ].

(** The prompt of [handleExplainRequest]. *)
Definition explainPrompt (target : string) : string :=
  "Explain the following code or concept in a clear, concise way for a developer: "
  +:+ quoted target.

(** The prompt of [generateFix]. *)
Definition fixPrompt (analysis errorOutput : string) : string :=
  lines [
    "Based on this error analysis:";
    "";
    analysis;
    "";
    "And the original error:";
    errorOutput;
    "";
    "Generate the corrected code. Provide only the fixed code, no explanations."
  ].

(** ** The model of the package, over a runtime *)

Section Package.
Context (rt : GoRuntime).

(** The state of the outside world: the machine, the clock (the sequence of
    readings [time.Now().UnixNano()] will give, and how many were taken) and
    the history of calls to the language model and the shell. *)
Record World : Type := {
  w_os : OsState rt;
  w_clock : nat -> Z;
  w_reads : nat;
  w_io : list IOEvent;
}.

Definition set_os (os : OsState rt) (w : World) : World :=
  {| w_os := os; w_clock := w_clock w; w_reads := w_reads w; w_io := w_io w |}.

Definition log_io (ev : IOEvent) (w : World) : World :=
  {| w_os := w_os w; w_clock := w_clock w; w_reads := w_reads w;
     w_io := w_io w ++ [ev] |}.

(** [time.Now().UnixNano()]. *)
Definition time_Now (w : World) : Z * World :=
  (w_clock w (w_reads w),
   {| w_os := w_os w; w_clock := w_clock w; w_reads := S (w_reads w);
      w_io := w_io w |}).

(** Calls of the language model client: the call is recorded, the answer is
    the client's. *)
Definition call_Chat (llm : LLMClient) (messages : list ChatCompletionMessage)
    (w : World) : Res string * World :=
  (Chat llm (w_io w) messages, log_io (LLMChat messages) w).

Definition call_AnalyzeError (llm : LLMClient) (errorOutput fileContent : string)
    (w : World) : Res string * World :=
  (AnalyzeError llm (w_io w) errorOutput fileContent,
   log_io (LLMAnalyzeError errorOutput fileContent) w).

Definition call_GenerateCommand (llm : LLMClient) (instruction : string)
    (w : World) : Res string * World :=
  (GenerateCommand llm (w_io w) instruction,
   log_io (LLMGenerateCommand instruction) w).

Definition call_PlanProject (llm : LLMClient) (description : string)
    (w : World) : Res string * World :=
  (PlanProject llm (w_io w) description, log_io (LLMPlanProject description) w).

(** *** The interfaces of types.go *)

(** An agent of the package returns a task result or an error, never
    neither; [Execute] is typed accordingly. *)
Record Agent : Type := {
  AgentKind : AgentType;
  Execute : Task -> World -> Res TaskResult * World;
}.

Record FileManager : Type := {
  CreateFile : string -> string -> World -> option error * World;
  UpdateFile : string -> string -> World -> option error * World;
  DeleteFile : string -> World -> option error * World;
  ReadFile : string -> World -> Res string * World;
  FileExists : string -> World -> bool;
}.

Record CommandExecutor : Type := {
  ExecuteCommand : string -> string -> World -> Res Command * World;
  ExecuteCommands :
    list string -> string -> World -> (list Command * option error) * World;
}.

(** *** commandexecutor.go *)

Definition set_failed (err : RunError) (stderr : string) (c : Command) : Command :=
  {| CmdID := CmdID c; CmdCommand := CmdCommand c; WorkingDir := WorkingDir c;
     CmdStatus := "failed"; Output := Output c;
     CmdError := RunError_Error err +:+ ": " +:+ stderr;
     CmdCreatedAt := CmdCreatedAt c |}.

Definition CommandExecutorImpl_ExecuteCommand (command workingDir : string)
    (w : World) : Res Command * World :=
  let '(startTime, w) := time_Now w in
  let run := cmd_Run rt (w_os w) command workingDir in
  let w := set_os (pr_os run) (log_io (ShRun command workingDir) w) in
  let result :=
    {| CmdID := "cmd_" +:+ pretty startTime;
       CmdCommand := command;
       WorkingDir := workingDir;
       CmdStatus := "completed";
       Output := pr_stdout run;
       CmdError := pr_stderr run;
       CmdCreatedAt := startTime |} in
  let result :=
    match pr_err run with
    | Some err => set_failed err (pr_stderr run) result
    | None => result
    end in
  (Ok result, w).

(** The loop of [ExecuteCommands], [results] being the slice built so far. *)
Fixpoint ExecuteCommands_loop (results : list Command) (commands : list string)
    (workingDir : string) (w : World)
    : (list Command * option error) * World :=
  match commands with
  | [] => ((results, None), w)
  | command :: rest =>
      match CommandExecutorImpl_ExecuteCommand command workingDir w with
      | (Err err, w) => ((results, Some err), w)
      | (Ok result, w) =>
          let results := results ++ [result] in
          if bool_decide (CmdStatus result = "failed")
          then ((results, None), w)
          else ExecuteCommands_loop results rest workingDir w
      end
  end.

Definition CommandExecutorImpl_ExecuteCommands (commands : list string)
    (workingDir : string) (w : World) : (list Command * option error) * World :=
  ExecuteCommands_loop [] commands workingDir w.

Definition NewCommandExecutor : CommandExecutor :=
  {| ExecuteCommand := CommandExecutorImpl_ExecuteCommand;
     ExecuteCommands := CommandExecutorImpl_ExecuteCommands |}.

(** *** filemanager.go *)

Definition FileManagerImpl_FileExists (path : string) (w : World) : bool :=
  negb (os_IsNotExist (os_Stat rt (w_os w) path)).

Definition FileManagerImpl_CreateFile (path content : string) (w : World)
    : option error * World :=
  let dir := filepath_Dir rt path in
  match os_MkdirAll rt (w_os w) dir with
  | (Some err, os) =>
      (Some ("failed to create directory for " +:+ path +:+ ": " +:+ err),
       set_os os w)
  | (None, os) =>
      match os_Create rt os path with
      | (Some err, os) =>
          (Some ("failed to create file " +:+ path +:+ ": " +:+ err), set_os os w)
      | (None, os) =>
          match file_WriteString rt os path content with
          | (Some err, os) =>
              (Some ("failed to write to file " +:+ path +:+ ": " +:+ err),
               set_os os w)
          | (None, os) => (None, set_os os w)
          end
      end
  end.

Definition FileManagerImpl_UpdateFile (path content : string) (w : World)
    : option error * World :=
  if negb (FileManagerImpl_FileExists path w)
  then (Some ("file does not exist: " +:+ path), w)
  else
    let '(err, os) := os_WriteFile rt (w_os w) path content in
    (err, set_os os w).

Definition FileManagerImpl_DeleteFile (path : string) (w : World)
    : option error * World :=
  let '(err, os) := os_Remove rt (w_os w) path in
  (err, set_os os w).

Definition FileManagerImpl_ReadFile (path : string) (w : World)
    : Res string * World :=
  match os_ReadFile rt (w_os w) path with
  | Err err => (Err err, w)
  | Ok content => (Ok content, w)
  end.

Definition NewFileManager : FileManager :=
  {| CreateFile := FileManagerImpl_CreateFile;
     UpdateFile := FileManagerImpl_UpdateFile;
     DeleteFile := FileManagerImpl_DeleteFile;
     ReadFile := FileManagerImpl_ReadFile;
     FileExists := FileManagerImpl_FileExists |}.

(** *** file.go *)

Section FileAgent.
Context (fileManager : FileManager).

Definition soft_failure (err : error) : TaskResult :=
  {| Success := false; ResultData := ∅; Error := err |}.

Definition handleCreateFile (task : Task) (w : World) : Res TaskResult * World :=
  match as_string (Data task !! "path") with
  | None => (Err "path not found in task data", w)
  | Some path =>
      let content := default "" (as_string (Data task !! "content")) in
      match as_string (Data task !! "workspace_dir") with
      | None => (Err "workspace_dir not found in task data", w)
      | Some workspaceDir =>
          let fullPath := filepath_Join rt workspaceDir path in
          match CreateFile fileManager fullPath content w with
          | (Some err, w) => (Ok (soft_failure err), w)
          | (None, w) =>
              (Ok {| Success := true;
                     ResultData :=
                       {[ "path" := VString fullPath; "created" := VBool true ]};
                     Error := "" |}, w)
          end
      end
  end.

Definition handleUpdateFile (task : Task) (w : World) : Res TaskResult * World :=
  match as_string (Data task !! "path") with
  | None => (Err "path not found in task data", w)
  | Some path =>
      match as_string (Data task !! "content") with
      | None => (Err "content not found for update operation", w)
      | Some content =>
          match as_string (Data task !! "workspace_dir") with
          | None => (Err "workspace_dir not found in task data", w)
          | Some workspaceDir =>
              let fullPath := filepath_Join rt workspaceDir path in
              match UpdateFile fileManager fullPath content w with
              | (Some err, w) => (Ok (soft_failure err), w)
              | (None, w) =>
                  (Ok {| Success := true;
                         ResultData :=
                           {[ "path" := VString fullPath;
                              "updated" := VBool true ]};
                         Error := "" |}, w)
              end
          end
      end
  end.

Definition handleDeleteFile (task : Task) (w : World) : Res TaskResult * World :=
  match as_string (Data task !! "path") with
  | None => (Err "path not found in task data", w)
  | Some path =>
      match as_string (Data task !! "workspace_dir") with
      | None => (Err "workspace_dir not found in task data", w)
      | Some workspaceDir =>
          let fullPath := filepath_Join rt workspaceDir path in
          match DeleteFile fileManager fullPath w with
          | (Some err, w) => (Ok (soft_failure err), w)
          | (None, w) =>
              (Ok {| Success := true;
                     ResultData :=
                       {[ "path" := VString fullPath; "deleted" := VBool true ]};
                     Error := "" |}, w)
          end
      end
  end.

Definition handleReadFile (task : Task) (w : World) : Res TaskResult * World :=
  match as_string (Data task !! "path") with
  | None => (Err "path not found in task data", w)
  | Some path =>
      match as_string (Data task !! "workspace_dir") with
      | None => (Err "workspace_dir not found in task data", w)
      | Some workspaceDir =>
          let fullPath := filepath_Join rt workspaceDir path in
          match ReadFile fileManager fullPath w with
          | (Err err, w) => (Ok (soft_failure err), w)
          | (Ok content, w) =>
              (Ok {| Success := true;
                     ResultData :=
                       {[ "path" := VString fullPath;
                          "content" := VString content ]};
                     Error := "" |}, w)
          end
      end
  end.

Definition FileAgentImpl_Execute (task : Task) (w : World)
    : Res TaskResult * World :=
  match as_string (Data task !! "operation") with
  | None => (Err "operation data not found in task", w)
  | Some operation =>
      if bool_decide (operation = "create") then handleCreateFile task w
      else if bool_decide (operation = "update") then handleUpdateFile task w
      else if bool_decide (operation = "delete") then handleDeleteFile task w
      else if bool_decide (operation = "read") then handleReadFile task w
      else (Err ("unknown file operation: " +:+ operation), w)
  end.

Definition NewFileAgent : Agent :=
  {| AgentKind := FileAgent; Execute := FileAgentImpl_Execute |}.

End FileAgent.

(** *** terminal.go *)

Section TerminalAgent.
Context (commandExec : CommandExecutor) (llmClient : LLMClient).

Definition TerminalAgentImpl_Execute (task : Task) (w : World)
    : Res TaskResult * World :=
  match as_string (Data task !! "instruction") with
  | None => (Err "instruction not found in task data", w)
  | Some instruction =>
      let workingDir := default "." (as_string (Data task !! "workspace_dir")) in
      match call_GenerateCommand llmClient instruction w with
      | (Err err, w) => (Err ("failed to generate command: " +:+ err), w)
      | (Ok command, w) =>
          match ExecuteCommand commandExec command workingDir w with
          | (Err err, w) => (Ok (soft_failure err), w)
          | (Ok result, w) =>
              (Ok {| Success := bool_decide (CmdError result = "");
                     ResultData :=
                       {[ "command" := VString command;
                          "output" := VString (Output result);
                          "error" := VString (CmdError result) ]};
                     Error := "" |}, w)
          end
      end
  end.

Definition NewTerminalAgent : Agent :=
  {| AgentKind := TerminalAgent; Execute := TerminalAgentImpl_Execute |}.

End TerminalAgent.

(** *** The planning agent *)

Section PlanningAgent.
Context (llmClient : LLMClient).

Definition createGenericPlan (request : string) (w : World) : Res string * World :=
  let prompt := genericPlanPrompt request in
  let messages :=
    [ {| Role := ChatMessageRoleSystem; Content := SystemPrompt |};
      {| Role := ChatMessageRoleUser; Content := prompt |} ] in
  match call_Chat llmClient messages w with
  | (Err err, w) => (Err ("LLM failed to generate a plan: " +:+ err), w)
  | (Ok planJSON, w) => (Ok planJSON, w)
  end.

Definition handleExplainRequest (target : string) (w : World)
    : Res string * World :=
  let prompt := explainPrompt target in
  let messages :=
    [ {| Role := ChatMessageRoleSystem;
         Content := "You are an expert programming instructor." |};
      {| Role := ChatMessageRoleUser; Content := prompt |} ] in
  call_Chat llmClient messages w.

Definition handleProjectCreation (description : string) (w : World)
    : Res ProjectPlan * World :=
  match call_PlanProject llmClient description w with
  | (Err err, w) => (Err ("LLM failed to generate project plan: " +:+ err), w)
  | (Ok planJSON, w) =>
      match json_Unmarshal rt planJSON with
      | Err err =>
          (Err ("failed to parse project plan JSON from LLM: " +:+ err
                +:+ ". Raw response: " +:+ planJSON), w)
      | Ok plan => (Ok plan, w)
      end
  end.

Definition PlanningAgentImpl_Execute (task : Task) (w : World)
    : Res TaskResult * World :=
  match as_string (Data task !! "request") with
  | None => (Err "request data not found in task", w)
  | Some request =>
      if strings_HasPrefix request "/create-project" then
        let description :=
          strings_TrimSpace rt (strings_TrimPrefix request "/create-project") in
        match handleProjectCreation description w with
        | (Err err, w) => (Err err, w)
        | (Ok plan, w) =>
            (Ok {| Success := true;
                   ResultData := {[ "plan" := VPlan plan ]};
                   Error := "" |}, w)
        end
      else if strings_HasPrefix request "/explain" then
        let target :=
          strings_TrimSpace rt (strings_TrimPrefix request "/explain") in
        match handleExplainRequest target w with
        | (Err err, w) => (Err err, w)
        | (Ok explanation, w) =>
            (Ok {| Success := true;
                   ResultData := {[ "explanation" := VString explanation ]};
                   Error := "" |}, w)
        end
      else
        match createGenericPlan request w with
        | (Err err, w) => (Err ("failed to create plan: " +:+ err), w)
        | (Ok plan, w) =>
            (Ok {| Success := true;
                   ResultData := {[ "plan" := VString plan ]};
                   Error := "" |}, w)
        end
  end.

Definition NewPlanningAgent : Agent :=
  {| AgentKind := PlanningAgent; Execute := PlanningAgentImpl_Execute |}.

End PlanningAgent.

(** *** The debug agent *)

Section DebugAgent.
Context (llmClient : LLMClient) (fileManager : FileManager).

Definition identifyErrorFile (_ _ : string) : string * string := ("", "").

Definition generateFix (errorOutput _fileContent analysis : string) (w : World)
    : Res string * World :=
  let prompt := fixPrompt analysis errorOutput in
  let messages :=
    [ {| Role := ChatMessageRoleSystem;
         Content := "You are an expert debugger. Generate corrected code based on error analysis." |};
      {| Role := ChatMessageRoleUser; Content := prompt |} ] in
  call_Chat llmClient messages w.

Definition DebugAgentImpl_Execute (task : Task) (w : World)
    : Res TaskResult * World :=
  match as_string (Data task !! "error_output") with
  | None => (Err "error_output not found in task data", w)
  | Some errorOutput =>
      let workspaceDir := default "." (as_string (Data task !! "workspace_dir")) in
      let '(filePath, fileContent) := identifyErrorFile errorOutput workspaceDir in
      match call_AnalyzeError llmClient errorOutput fileContent w with
      | (Err err, w) => (Err ("failed to analyze error: " +:+ err), w)
      | (Ok analysis, w) =>
          match generateFix errorOutput fileContent analysis w with
          | (Err err, w) => (Err ("failed to generate fix: " +:+ err), w)
          | (Ok fix_, w) =>
              (Ok {| Success := true;
                     ResultData :=
                       {[ "analysis" := VString analysis;
                          "fix" := VString fix_;
                          "file" := VString filePath ]};
                     Error := "" |}, w)
          end
      end
  end.

Definition NewDebugAgent : Agent :=
  {| AgentKind := DebugAgent; Execute := DebugAgentImpl_Execute |}.

End DebugAgent.

(** *** system.go *)

(** What a function returning a task result and an error returns:
    [nil, err], [result, err] or [result, nil]. *)
Inductive Outcome : Type :=
| Failure (err : error)
| FailureWith (result : TaskResult) (err : error)
| Return (result : TaskResult).

Definition outcome_result (o : Outcome) : option TaskResult :=
  match o with
  | Failure _ => None
  | FailureWith result _ => Some result
  | Return result => Some result
  end.

Definition outcome_err (o : Outcome) : option error :=
  match o with
  | Failure err => Some err
  | FailureWith _ err => Some err
  | Return _ => None
  end.

(** What an observer of the orchestrator sees: each assignment to a task's
    [Status], and each call of an agent's [Execute] with the task as it is
    handed over. *)
Inductive SysEvent : Type :=
| SetStatus (id : string) (st : TaskStatus)
| Invoke (task : Task).

(** [System]; [trace] is not a field of the Go struct, it records the
    events above in order. *)
Record System : Type := {
  agents : gmap string Agent;
  llmClient : LLMClient;
  fileManager : FileManager;
  commandExec : CommandExecutor;
  results : gmap string TaskResult;
  trace : list SysEvent;
}.

Definition record_event (ev : SysEvent) (s : System) : System :=
  {| agents := agents s; llmClient := llmClient s; fileManager := fileManager s;
     commandExec := commandExec s; results := results s;
     trace := trace s ++ [ev] |}.

Definition store_result (id : string) (result : TaskResult) (s : System) : System :=
  {| agents := agents s; llmClient := llmClient s; fileManager := fileManager s;
     commandExec := commandExec s; results := <[ id := result ]> (results s);
     trace := trace s |}.

(** [task.Status = st]. *)
Definition assign_Status (st : TaskStatus) (task : Task) (s : System)
    : Task * System :=
  (set_Status st task, record_event (SetStatus (ID task) st) s).

(** [agent.Execute(ctx, task)]. *)
Definition call_Execute (agent : Agent) (task : Task) (s : System) (w : World)
    : Res TaskResult * System * World :=
  let '(out, w) := Execute agent task w in
  (out, record_event (Invoke task) s, w).

Definition keywords : list string :=
  [ "run in terminal"; "execute"; "open terminal"; "run command"; "shell";
    "bash"; "powershell"; "/run" ].

Definition isTerminalIntent (input : string) : bool :=
  let inputLower := strings_ToLower rt input in
  existsb (fun k => strings_Contains inputLower k) keywords.

Definition NewSystem (llm : LLMClient) : System :=
  let fm := NewFileManager in
  let ce := NewCommandExecutor in
  {| agents :=
       <[ DebugAgent := NewDebugAgent llm ]>
       (<[ TerminalAgent := NewTerminalAgent ce llm ]>
       (<[ FileAgent := NewFileAgent fm ]>
       (<[ PlanningAgent := NewPlanningAgent llm ]> ∅)));
     llmClient := llm;
     fileManager := fm;
     commandExec := ce;
     results := ∅;
     trace := [] |}.

Definition generateTaskID (w : World) : string * World :=
  let '(now, w) := time_Now w in
  ("task_" +:+ pretty now, w).

Definition ExecuteTask (task : Task) (s : System) (w : World)
    : Outcome * Task * System * World :=
  match agents s !! Type_ task with
  | None => (Failure ("agent type " +:+ Type_ task +:+ " not found"), task, s, w)
  | Some agent =>
      let '(task, s) := assign_Status TaskRunning task s in
      let '(now, w) := time_Now w in
      let task := set_UpdatedAt now task in
      let '(out, s, w) := call_Execute agent task s w in
      match out with
      | Err err =>
          let '(task, s) := assign_Status TaskFailed task s in
          let task := set_Result {| Success := false; ResultData := ∅; Error := err |} task in
          (FailureWith {| Success := false; ResultData := ∅; Error := err |} err,
           task, s, w)
      | Ok result =>
          let '(task, s) := assign_Status TaskCompleted task s in
          let task := set_Result result task in
          let '(now, w) := time_Now w in
          let task := set_UpdatedAt now task in
          let s := store_result (ID task) result s in
          (Return result, task, s, w)
      end
  end.

(** The loop of [ExecuteTaskChain], [results] being the slice built so far.
    The tasks are returned as the loop leaves them. The slice holds
    pointers in the code and values here: a slice that holds the same task
    object twice is not represented, so what is said of the returned tasks
    is said of slices of distinct tasks. The results, the error and the
    calls of the agents do not depend on this. *)
Fixpoint ExecuteTaskChain_loop (acc : list TaskResult) (tasks : list Task)
    (s : System) (w : World)
    : (list TaskResult * option error) * list Task * System * World :=
  match tasks with
  | [] => ((acc, None), [], s, w)
  | task :: rest =>
      let '(out, task, s, w) := ExecuteTask task s w in
      match out with
      | Failure err => ((acc, Some err), task :: rest, s, w)
      | FailureWith _ err => ((acc, Some err), task :: rest, s, w)
      | Return result =>
          let acc := acc ++ [result] in
          if negb (Success result)
          then ((acc, None), task :: rest, s, w)
          else
            let '(ret, rest, s, w) := ExecuteTaskChain_loop acc rest s w in
            (ret, task :: rest, s, w)
      end
  end.

Definition ExecuteTaskChain (tasks : list Task) (s : System) (w : World)
    : (list TaskResult * option error) * list Task * System * World :=
  ExecuteTaskChain_loop [] tasks s w.

Definition GetTaskResult (taskID : string) (s : System) : option TaskResult :=
  results s !! taskID.

Definition new_task (id : string) (kind : AgentType) (description : string)
    (data : gmap string Value) (createdAt : Z) : Task :=
  {| ID := id; Type_ := kind; Description := description; Data := data;
     Status := TaskPending; CreatedAt := createdAt; UpdatedAt := 0;
     Result := None |}.

Definition ProcessUserRequest (request workspaceDir : string) (s : System)
    (w : World) : Outcome * System * World :=
  if isTerminalIntent request then
    let '(id, w) := generateTaskID w in
    let '(now, w) := time_Now w in
    let task :=
      new_task id TerminalAgent "Execute terminal command (intent classified)"
        {[ "instruction" := VString request;
           "workspace_dir" := VString workspaceDir ]} now in
    let '(out, _, s, w) := ExecuteTask task s w in
    (out, s, w)
  else
    let '(id, w) := generateTaskID w in
    let '(now, w) := time_Now w in
    let planningTask :=
      new_task id PlanningAgent "Plan and execute user request"
        {[ "request" := VString request;
           "workspace_dir" := VString workspaceDir ]} now in
    let '(out, _, s, w) := ExecuteTask planningTask s w in
    match out with
    | Failure err => (Failure ("failed to process request: " +:+ err), s, w)
    | FailureWith _ err => (Failure ("failed to process request: " +:+ err), s, w)
    | Return result => (Return result, s, w)
    end.

Definition handleFixCommand (errorOutput workspaceDir : string) (s : System)
    (w : World) : Outcome * System * World :=
  let '(id, w) := generateTaskID w in
  let '(now, w) := time_Now w in
  let task :=
    new_task id DebugAgent "Fix error in code"
      {[ "error_output" := VString errorOutput;
         "workspace_dir" := VString workspaceDir ]} now in
  let '(out, _, s, w) := ExecuteTask task s w in
  (out, s, w).

Definition handleRunCommand (instruction workspaceDir : string) (s : System)
    (w : World) : Outcome * System * World :=
  let '(id, w) := generateTaskID w in
  let '(now, w) := time_Now w in
  let task :=
    new_task id TerminalAgent "Execute command"
      {[ "instruction" := VString instruction;
         "workspace_dir" := VString workspaceDir ]} now in
  let '(out, _, s, w) := ExecuteTask task s w in
  (out, s, w).

Definition handleExplainCommand (target workspaceDir : string) (s : System)
    (w : World) : Outcome * System * World :=
  let '(id, w) := generateTaskID w in
  let '(now, w) := time_Now w in
  let task :=
    new_task id PlanningAgent "Explain code or concept"
      {[ "target" := VString target;
         "workspace_dir" := VString workspaceDir ]} now in
  let '(out, _, s, w) := ExecuteTask task s w in
  (out, s, w).

Definition handleCreateProjectCommand (description workspaceDir : string)
    (s : System) (w : World) : Outcome * System * World :=
  let '(id, w) := generateTaskID w in
  let '(now, w) := time_Now w in
  let task :=
    new_task id PlanningAgent "Create project from description"
      {[ "description" := VString description;
         "workspace_dir" := VString workspaceDir ]} now in
  let '(out, _, s, w) := ExecuteTask task s w in
  (out, s, w).

Definition HandleCommand (command args workspaceDir : string) (s : System)
    (w : World) : Outcome * System * World :=
  if bool_decide (command = "/fix") then handleFixCommand args workspaceDir s w
  else if bool_decide (command = "/run") then handleRunCommand args workspaceDir s w
  else if bool_decide (command = "/explain")
    then handleExplainCommand args workspaceDir s w
  else if bool_decide (command = "/create-project")
    then handleCreateProjectCommand args workspaceDir s w
  else (Failure ("unknown command: " +:+ command), s, w).

End Package.

Arguments w_os {rt} _.
Arguments w_clock {rt} _.
Arguments w_reads {rt} _.
Arguments w_io {rt} _.
Arguments AgentKind {rt} _.
Arguments Execute {rt} _ _ _.
Arguments agents {rt} _.
Arguments results {rt} _.
Arguments trace {rt} _.
Arguments set_os {rt} _ _.
Arguments log_io {rt} _ _.
Arguments time_Now {rt} _.
Arguments generateTaskID {rt} _.
Arguments record_event {rt} _ _.
Arguments store_result {rt} _ _ _.
Arguments ExecuteTask {rt} _ _ _.
Arguments ExecuteTaskChain {rt} _ _ _.
Arguments ExecuteTaskChain_loop {rt} _ _ _ _.
Arguments GetTaskResult {rt} _ _.
Arguments ProcessUserRequest {rt} _ _ _ _.
Arguments HandleCommand {rt} _ _ _ _ _.

(** ** A small machine for the examples

    Files are a map from clean absolute paths to contents and every
    directory exists, except that the shell cannot be started in the working
    directory [/missing]; the shell knows [true], [false] and [ls]; text is
    ASCII. The language model answers every instruction with itself. *)

Module Demo.

Definition lower_byte (c : Ascii.ascii) : Ascii.ascii :=
  let n := Ascii.nat_of_ascii c in
  if (65 <=? n)%nat && (n <=? 90)%nat then Ascii.ascii_of_nat (n + 32) else c.

Fixpoint lower_bytes (s : string) : string :=
  match s with
  | EmptyString => EmptyString
  | String c rest => String (lower_byte c) (lower_bytes rest)
  end.

Definition is_space (c : Ascii.ascii) : bool :=
  let n := Ascii.nat_of_ascii c in
  (n =? 32)%nat || ((9 <=? n)%nat && (n <=? 13)%nat).

Fixpoint trim_left (s : string) : string :=
  match s with
  | String c rest => if is_space c then trim_left rest else s
  | EmptyString => EmptyString
  end.

Definition trim_space (s : string) : string :=
  String.rev (trim_left (String.rev (trim_left s))).

(** The text before the last slash of a path that has one. *)
Fixpoint dir_of (path : string) : option string :=
  match path with
  | EmptyString => None
  | String c rest =>
      match dir_of rest with
      | Some dir => Some (String c dir)
      | None =>
          if (Ascii.nat_of_ascii c =? 47)%nat then Some EmptyString else None
      end
  end.

Definition no_such (op path : string) : string :=
  op +:+ " " +:+ path +:+ ": no such file or directory".

Definition run (os : gmap string string) (command dir : string)
    : ProcResult (gmap string string) :=
  if bool_decide (dir = "/missing") then
    {| pr_stdout := ""; pr_stderr := "";
       pr_err := Some (StartError (no_such "chdir" dir)); pr_os := os |}
  else if bool_decide (command = "true") then
    {| pr_stdout := ""; pr_stderr := ""; pr_err := None; pr_os := os |}
  else if bool_decide (command = "false") then
    {| pr_stdout := ""; pr_stderr := ""; pr_err := Some (ExitError 1);
       pr_os := os |}
  else if bool_decide (command = "ls") then
    {| pr_stdout := "main.go"; pr_stderr := ""; pr_err := None; pr_os := os |}
  else
    {| pr_stdout := ""; pr_stderr := "sh: 1: " +:+ command +:+ ": not found";
       pr_err := Some (ExitError 127); pr_os := os |}.

Definition empty_plan : ProjectPlan :=
  {| PlanName := ""; PlanDescription := "";
     Structure := {| Folders := []; StructureFiles := [] |};
     TechStack := ∅; Setup := []; Dependencies := ∅; PlanFiles := [] |}.

Definition rt : GoRuntime :=
  {| OsState := gmap string string;
     strings_ToLower := lower_bytes;
     strings_TrimSpace := trim_space;
     filepath_Join := fun dir path => dir +:+ "/" +:+ path;
     filepath_Dir := fun path =>
       match dir_of path with
       | Some EmptyString => "/"
       | Some dir => dir
       | None => "."
       end;
     json_Unmarshal := fun text =>
       if bool_decide (text = "{}") then Ok empty_plan
       else Err "unexpected end of JSON input";
     os_Stat := fun os path =>
       match os !! path with
       | Some _ => None
       | None =>
           Some {| oserr_text := no_such "stat" path; oserr_not_exist := true |}
       end;
     os_MkdirAll := fun os _ => (None, os);
     os_Create := fun os path => (None, <[ path := "" ]> os);
     file_WriteString := fun os path content => (None, <[ path := content ]> os);
     os_WriteFile := fun os path content => (None, <[ path := content ]> os);
     os_Remove := fun os path =>
       match os !! path with
       | Some _ => (None, delete path os)
       | None => (Some (no_such "remove" path), os)
       end;
     os_ReadFile := fun os path =>
       match os !! path with
       | Some content => Ok content
       | None => Err (no_such "open" path)
       end;
     cmd_Run := run |}.

Definition llm : LLMClient :=
  {| Chat := fun _ _ => Ok "[]";
     AnalyzeError := fun _ _ _ => Ok "nil pointer dereference";
     GenerateCommand := fun _ instruction => Ok instruction;
     PlanProject := fun _ _ => Ok "{}" |}.

(** One file in the workspace, the clock at 1000 and counting in steps of 7. *)
Definition w0 : World rt :=
  {| w_os := {[ "/ws/main.go" := "package main" ]};
     w_clock := fun n => (1000 + 7 * Z.of_nat n)%Z;
     w_reads := 0;
     w_io := [] |}.

Definition s0 : System rt := NewSystem rt llm.



(** Tasks used in the examples. *)
Definition file_update_task (id path : string) : Task :=
  new_task id FileAgent "Update a file"
    {[ "operation" := VString "update"; "path" := VString path;
       "content" := VString "package agent";
       "workspace_dir" := VString "/ws" ]} 0.

Definition plan_task (id request : string) : Task :=
  new_task id PlanningAgent "Plan and execute user request"
    {[ "request" := VString request; "workspace_dir" := VString "/ws" ]} 0.

Definition explain_task (id target : string) : Task :=
  new_task id PlanningAgent "Explain code or concept"
    {[ "target" := VString target; "workspace_dir" := VString "/ws" ]} 0.

Definition run_task (id instruction : string) : Task :=
  new_task id TerminalAgent "Execute command"
    {[ "instruction" := VString instruction;
       "workspace_dir" := VString "/ws" ]} 0.

(** The result of the planning agent for a plain request. *)
Definition plan_result : TaskResult :=
  {| Success := true; ResultData := {[ "plan" := VString "[]" ]}; Error := "" |}.

Definition missing_request : string := "request data not found in task".
Definition missing_file : string := "file does not exist: /ws/absent.go".

End Demo.

(** * Notions used in the statements *)

Section Notions.
Context {rt : GoRuntime}.

(** The task as [ExecuteTask] hands it to the agent. *)
Definition running_task (task : Task) (w : World rt) : Task :=
  set_UpdatedAt (time_Now w).1 (set_Status TaskRunning task).

(** What the agent returns for it. *)
Definition agent_return (agent : Agent rt) (task : Task) (w : World rt)
    : Res TaskResult :=
  (Execute agent (running_task task w) (time_Now w).2).1.

(** The system has the four agents [NewSystem] registers. *)
Definition standard_agents (llm : LLMClient) (s : System rt) : Prop :=
  agents s = agents (NewSystem rt llm).

(** What [ExecuteTask] leaves when the agent's [Execute] is [execute], [t]
    is the task as handed to it and [w] the world at that point: a result
    the agent returns is the outcome and is stored under the id of the
    task, and the clock is read once more; an error [e] gives the outcome
    [failure e] and the result store stays as it was. *)
Definition executed_with
    (execute : Task -> World rt -> Res TaskResult * World rt)
    (failure : error -> Outcome) (t : Task) (w : World rt)
    (s : System rt) (out : Outcome) (s' : System rt) (w' : World rt) : Prop :=
  match execute t w with
  | (Ok r, w2) =>
      out = Return r
      ∧ results s' = <[ ID t := r ]> (results s)
      ∧ w' = (time_Now w2).2
  | (Err e, w2) => out = failure e ∧ results s' = results s ∧ w' = w2
  end.

End Notions.

(** The tasks handed to an agent, in order. *)
Definition invoked (tr : list SysEvent) : list Task :=
  omap (fun ev => match ev with Invoke task => Some task | _ => None end) tr.

(** [sub] occurs in [s]. *)
Definition contains (s sub : string) : Prop :=
  ∃ before after, s = before +:+ sub +:+ after.

(** The request, lower-cased, contains one of the terminal phrases. *)
Definition has_terminal_phrase (rt : GoRuntime) (request : string) : Prop :=
  ∃ k, k ∈ keywords ∧ contains (strings_ToLower rt request) k.

(** Bytes below 128 other than the capital letters. *)
Definition lower_ascii_byte (c : Ascii.ascii) : bool :=
  let n := Ascii.nat_of_ascii c in
  (n <? 128)%nat && negb ((65 <=? n)%nat && (n <=? 90)%nat).

Fixpoint lower_ascii (s : string) : bool :=
  match s with
  | EmptyString => true
  | String c rest => lower_ascii_byte c && lower_ascii rest
  end.

(** What is known of [strings.ToLower] here: it leaves a string of such
    bytes as it is. *)
Definition ToLower_keeps_lower_ascii (rt : GoRuntime) : Prop :=
  ∀ s, lower_ascii s = true → strings_ToLower rt s = s.

(** The dispatch table of [dispatchCommand] as the specification gives it,
    to be compared with the switch of [HandleCommand]: for each verb the
    kind of the task, the payload key that receives [args] and the task's
    description. The keys are spelled as in the code; the specification
    writes every name in camel case, [errorOutput] for [error_output] as
    [workspaceDir] for [workspace_dir]. *)
Definition dispatch_table : list (string * (AgentType * string * string)) :=
  [ ("/fix", (DebugAgent, "error_output", "Fix error in code"));
    ("/run", (TerminalAgent, "instruction", "Execute command"));
    ("/explain", (PlanningAgent, "target", "Explain code or concept"));
    ("/create-project",
      (PlanningAgent, "description", "Create project from description")) ].

Fixpoint assoc {A : Type} (key : string) (table : list (string * A)) : option A :=
  match table with
  | [] => None
  | (k, v) :: rest => if bool_decide (key = k) then Some v else assoc key rest
  end.

(** * More of the code

    The parts of the repository around the functions above: the consumer of
    the task queue ([system.go]), [ListFiles] ([filemanager.go]), the Groq
    client (package [llm]) and the HTTP handlers (package [server]).
    [handleProcessRequest] and [System.SetModel] are left out: they change
    the model of the client the agents share, which the [LLMClient] record
    of this development, a record of functions, does not hold. *)

Section Consumer.
Context {rt : GoRuntime}.

(** The loop of [processTasks], over the tasks received from the queue in
    the order they are received; the tasks are returned as the loop leaves
    them. Both branches of the error test go on with the next task. The
    interleaving of the goroutine with other callers is not modelled. *)
Fixpoint processTasks (received : list Task) (s : System rt) (w : World rt)
    : list Task * System rt * World rt :=
  match received with
  | [] => ([], s, w)
  | task :: rest =>
      let '(out, task, s, w) := ExecuteTask task s w in
      let '(rest, s, w) :=
        match outcome_err out with
        | Some _ => processTasks rest s w
        | None => processTasks rest s w
        end in
      (task :: rest, s, w)
  end.

End Consumer.

(** ** filemanager.go: [ListFiles] *)

(** One call of the function given to [filepath.Walk]: the path, whether
    [info.IsDir()] holds, and the error passed in. *)
Record WalkVisit : Type := {
  VisitPath : string;
  VisitIsDir : bool;
  VisitErr : option error;
}.

Section ListFiles.
Context {rt : GoRuntime}.

(** [filepath.Walk os dir] is the sequence of calls [filepath.Walk] makes
    as long as the function returns nil; it stops at the first call that
    returns an error and returns that error. [filepath.Rel] may fail. *)
Context (filepath_Walk : OsState rt -> string -> list WalkVisit).
Context (filepath_Rel : string -> string -> Res string).

(** The walk of [ListFiles], [files] being the slice built so far. *)
Fixpoint ListFiles_walk (dir : string) (files : list string)
    (visits : list WalkVisit) : list string * option error :=
  match visits with
  | [] => (files, None)
  | visit :: rest =>
      match VisitErr visit with
      | Some err => (files, Some err)
      | None =>
          if negb (VisitIsDir visit) then
            match filepath_Rel dir (VisitPath visit) with
            | Err err => (files, Some err)
            | Ok relPath => ListFiles_walk dir (files ++ [relPath]) rest
            end
          else ListFiles_walk dir files rest
      end
  end.

Definition FileManagerImpl_ListFiles (dir : string) (w : World rt)
    : list string * option error :=
  ListFiles_walk dir [] (filepath_Walk (w_os w) dir).

End ListFiles.

(** ** Package llm: the Groq client *)

Module Llm.

Record ChatCompletionRequest : Type := {
  Model : string;
  Messages : list ChatCompletionMessage;
}.

(** The remote service: for the client's API key and a request, an error or
    the message contents of the choices of the response. The answer may
    depend on what happened before. *)
Record API : Type := {
  CreateChatCompletion :
    list IOEvent -> string -> ChatCompletionRequest -> Res (list string);
}.

(** [GroqClient]: the API key of the configured client and the model. *)
Record GroqClient : Type := {
  client : string;
  model : string;
}.

Definition NewGroqClient (apiKey model : string) : Res GroqClient :=
  if bool_decide (apiKey = "") then Err "API key is required"
  else Ok {| client := apiKey; model := model |}.

Definition SetModel (model : string) (g : GroqClient) : GroqClient :=
  {| client := client g; model := model |}.

Definition GetModel (g : GroqClient) : string := model g.

Section Client.
Context (api : API) (g : GroqClient).

Definition Chat (history : list IOEvent) (messages : list ChatCompletionMessage)
    : Res string :=
  match CreateChatCompletion api history (client g)
          {| Model := model g; Messages := messages |} with
  | Err err => Err ("failed to create chat completion: " +:+ err)
  | Ok choices =>
      match choices with
      | [] => Err "no response from model"
      | content :: _ => Ok content
      end
  end.

Definition conversation (system user : string) : list ChatCompletionMessage :=
  [ {| Role := ChatMessageRoleSystem; Content := system |};
    {| Role := ChatMessageRoleUser; Content := user |} ].

Definition classifyIntentPrompt (request : string) : string :=
  lines [
    "The user sent the following request: " +:+ quoted request;
    "Is the user explicitly asking to execute a command in the terminal, asking for code to be generated/modified, or something else?";
    "Respond with only one of the following words: " +:+ quoted "TERMINAL"
      +:+ ", " +:+ quoted "CODE" +:+ ", or " +:+ quoted "GENERAL" +:+ "."
  ].

Definition ClassifyIntent (history : list IOEvent) (request : string)
    : Res string :=
  Chat history
    (conversation
       "You are an expert at classifying user intent. Respond with only one word: TERMINAL, CODE, or GENERAL."
       (classifyIntentPrompt request)).

Definition analyzeErrorPrompt (errorOutput fileContent : string) : string :=
  lines [
    "Analyze this terminal error and suggest a fix:";
    "";
    "Error Output:";
    errorOutput;
    "";
    "File Content:";
    fileContent;
    "";
    "Please provide:";
    "1. What caused the error";
    "2. How to fix it";
    "3. The corrected code if applicable";
    "";
    "Respond in a clear, actionable format."
  ].

Definition AnalyzeError (history : list IOEvent)
    (errorOutput fileContent : string) : Res string :=
  Chat history
    (conversation
       "You are an expert debugging assistant. Analyze errors and provide clear, actionable solutions."
       (analyzeErrorPrompt errorOutput fileContent)).

Definition generateCommandPrompt (instruction : string) : string :=
  lines [
    "Convert this natural language instruction to a shell command:";
    "";
    "Instruction: " +:+ instruction;
    "";
    "Provide only the shell command, no explanations. If multiple commands are needed, separate them with && or ; as appropriate."
  ].

Definition GenerateCommand (history : list IOEvent) (instruction : string)
    : Res string :=
  Chat history
    (conversation
       "You are a command-line expert. Convert natural language to exact shell commands."
       (generateCommandPrompt instruction)).

Definition planProjectPrompt (description : string) : string :=
  lines [
    "Create a detailed project plan for: " +:+ description;
    "";
    "Include:";
    "1. Project structure (folders and files)";
    "2. Technology stack";
    "3. Key files to create";
    "4. Setup commands";
    "5. Dependencies to install";
    "";
    "Format as JSON with the following structure:";
    "{";
    "  " +:+ quoted "name" +:+ ": " +:+ quoted "project name" +:+ ",";
    "  " +:+ quoted "description" +:+ ": " +:+ quoted "brief description" +:+ ",";
    "  " +:+ quoted "structure" +:+ ": {";
    "    " +:+ quoted "folders" +:+ ": [" +:+ quoted "list" +:+ ", "
      +:+ quoted "of" +:+ ", " +:+ quoted "folders" +:+ "],";
    "    " +:+ quoted "files" +:+ ": [" +:+ quoted "list" +:+ ", "
      +:+ quoted "of" +:+ ", " +:+ quoted "files" +:+ "]";
    "  },";
    "  " +:+ quoted "tech_stack" +:+ ": {";
    "    " +:+ quoted "frontend" +:+ ": " +:+ quoted "..." +:+ ",";
    "    " +:+ quoted "backend" +:+ ": " +:+ quoted "..." +:+ ",";
    "    " +:+ quoted "database" +:+ ": " +:+ quoted "...";
    "  },";
    "  " +:+ quoted "setup_commands" +:+ ": [" +:+ quoted "command1" +:+ ", "
      +:+ quoted "command2" +:+ "],";
    "  " +:+ quoted "dependencies" +:+ ": {";
    "    " +:+ quoted "frontend" +:+ ": [" +:+ quoted "dep1" +:+ ", "
      +:+ quoted "dep2" +:+ "],";
    "    " +:+ quoted "backend" +:+ ": [" +:+ quoted "dep1" +:+ ", "
      +:+ quoted "dep2" +:+ "]";
    "  }";
    "}"
  ].

Definition PlanProject (history : list IOEvent) (description : string)
    : Res string :=
  Chat history
    (conversation
       "You are a project architect. Create detailed project plans from natural language descriptions."
       (planProjectPrompt description)).

Definition generateCodePrompt (requirements context : string) : string :=
  lines [
    "Generate code based on these requirements:";
    "";
    "Requirements: " +:+ requirements;
    "";
    "Context: " +:+ context;
    "";
    "Provide only the code, no explanations unless specifically requested."
  ].

Definition GenerateCode (history : list IOEvent) (requirements context : string)
    : Res string :=
  Chat history
    (conversation
       "You are an expert programmer. Generate clean, working code based on requirements."
       (generateCodePrompt requirements context)).

(** The client as the agents see it, through the interface [LLMClient]. *)
Definition asLLMClient : LLMClient :=
  Build_LLMClient Chat AnalyzeError GenerateCommand PlanProject.

End Client.

End Llm.

(** ** Package server: the HTTP handlers *)

Module Server.

(** The decoded body of a request. *)
Record Request : Type := {
  ReqType : string;
  ReqCommand : string;
  ReqArgs : string;
  ReqRequest : string;
  ReqWorkspaceDir : string;
  ReqModel : string;
  ReqData : gmap string Value;
}.

Record Response : Type := {
  RespSuccess : bool;
  RespData : gmap string Value;
  RespError : string;
}.

(** What is encoded into the body of a response. *)
Inductive Body : Type :=
| BodyResponse (response : Response)
| BodyStatus (fields : gmap string string).

(** An [http.ResponseWriter]: the header map, the status once the header is
    written, and what was written to the body. *)
Record ResponseWriter : Type := {
  Header : gmap string string;
  Status : option nat;
  Written : list Body;
}.

Definition StatusOK : nat := 200.
Definition StatusBadRequest : nat := 400.
Definition StatusInternalServerError : nat := 500.

(** [w.Header().Set(key, value)]; once the header is written a change of
    the map no longer reaches the response. *)
Definition Header_Set (key value : string) (rw : ResponseWriter)
    : ResponseWriter :=
  match Status rw with
  | Some _ => rw
  | None =>
      {| Header := <[ key := value ]> (Header rw); Status := None;
         Written := Written rw |}
  end.

(** [w.WriteHeader(status)]; a second call is ignored. *)
Definition WriteHeader (status : nat) (rw : ResponseWriter) : ResponseWriter :=
  match Status rw with
  | Some _ => rw
  | None =>
      {| Header := Header rw; Status := Some status; Written := Written rw |}
  end.

(** [json.NewEncoder(w).Encode(v)]; the first write sends status 200 if
    the header is not written yet. *)
Definition Encode (body : Body) (rw : ResponseWriter) : ResponseWriter :=
  {| Header := Header rw;
     Status := Some (default StatusOK (Status rw));
     Written := Written rw ++ [body] |}.

Definition sendJSON (rw : ResponseWriter) (data : Body) : ResponseWriter :=
  Encode data (Header_Set "Content-Type" "application/json" rw).

Definition sendError (rw : ResponseWriter) (message : string) (status : nat)
    : ResponseWriter :=
  let response :=
    {| RespSuccess := false; RespData := ∅; RespError := message |} in
  Encode (BodyResponse response)
    (WriteHeader status (Header_Set "Content-Type" "application/json" rw)).

Definition sendResponse (rw : ResponseWriter) (result : TaskResult)
    : ResponseWriter :=
  let response :=
    {| RespSuccess := Success result; RespData := ResultData result;
       RespError := Error result |} in
  sendJSON rw (BodyResponse response).

Definition handleHealth (rw : ResponseWriter) : ResponseWriter :=
  Encode (BodyStatus {[ "status" := "healthy" ]})
    (WriteHeader StatusOK (Header_Set "Content-Type" "application/json" rw)).

(** [handleChat]; [body] is what decoding the request body gives. *)
Definition handleChat (body : Res Request) (rw : ResponseWriter)
    : ResponseWriter :=
  match body with
  | Err _ => sendError rw "Invalid request body" StatusBadRequest
  | Ok _ =>
      sendJSON rw
        (BodyResponse
           {| RespSuccess := true;
              RespData :=
                {[ "message" :=
                     VString "Chat functionality will be implemented here" ]};
              RespError := "" |})
  end.

Section Handlers.
Context {rt : GoRuntime}.

(** [handleCommand]; [body] is what decoding the request body gives. *)
Definition handleCommand (body : Res Request) (rw : ResponseWriter)
    (s : System rt) (w : World rt) : ResponseWriter * System rt * World rt :=
  match body with
  | Err _ => (sendError rw "Invalid request body" StatusBadRequest, s, w)
  | Ok req =>
      let '(out, s, w) :=
        HandleCommand (ReqCommand req) (ReqArgs req) (ReqWorkspaceDir req) s w in
      match out with
      | Failure err => (sendError rw err StatusInternalServerError, s, w)
      | FailureWith _ err => (sendError rw err StatusInternalServerError, s, w)
      | Return result => (sendResponse rw result, s, w)
      end
  end.

End Handlers.

(** [corsMiddleware]: a handler is given the method of the request, the
    writer and its state. *)
Definition corsMiddleware {St : Type}
    (next : string -> ResponseWriter -> St -> ResponseWriter * St)
    (method : string) (rw : ResponseWriter) (st : St) : ResponseWriter * St :=
  let rw := Header_Set "Access-Control-Allow-Origin" "*" rw in
  let rw :=
    Header_Set "Access-Control-Allow-Methods" "GET, POST, PUT, DELETE, OPTIONS"
      rw in
  let rw :=
    Header_Set "Access-Control-Allow-Headers" "Content-Type, Authorization" rw in
  if bool_decide (method = "OPTIONS") then (WriteHeader StatusOK rw, st)
  else next method rw st.

(** A writer nothing was done to yet. *)
Definition fresh : ResponseWriter :=
  {| Header := ∅; Status := None; Written := [] |}.

End Server.

(** ** Notions used in the further statements *)

(** The commands given to the shell, with their working directories. *)
Definition shell_runs (io : list IOEvent) : list (string * string) :=
  omap (fun ev => match ev with
                  | ShRun command dir => Some (command, dir)
                  | _ => None
                  end) io.

(** The task with one payload entry set. *)
Definition set_payload (key : string) (v : Value) (t : Task) : Task :=
  {| ID := ID t; Type_ := Type_ t; Description := Description t;
     Data := <[ key := v ]> (Data t); Status := Status t;
     CreatedAt := CreatedAt t; UpdatedAt := UpdatedAt t; Result := Result t |}.


(** ** More of the small machine *)

Module DemoMore.

(** A machine on which [os.Stat] and [os.WriteFile] are refused. *)
Definition denied (op path : string) : string :=
  op +:+ " " +:+ path +:+ ": permission denied".

Definition rt_denied : GoRuntime :=
  {| OsState := gmap string string;
     strings_ToLower := strings_ToLower Demo.rt;
     strings_TrimSpace := strings_TrimSpace Demo.rt;
     filepath_Join := filepath_Join Demo.rt;
     filepath_Dir := filepath_Dir Demo.rt;
     json_Unmarshal := json_Unmarshal Demo.rt;
     os_Stat := fun _ path =>
       Some {| oserr_text := denied "stat" path; oserr_not_exist := false |};
     os_MkdirAll := fun os _ => (None, os);
     os_Create := fun os path => (Some (denied "open" path), os);
     file_WriteString := fun os path _ => (Some (denied "write" path), os);
     os_WriteFile := fun os path _ => (Some (denied "open" path), os);
     os_Remove := fun os path => (Some (denied "remove" path), os);
     os_ReadFile := fun _ path => Err (denied "open" path);
     cmd_Run := Demo.run |}.

Definition w_denied : World rt_denied :=
  {| w_os := ∅; w_clock := fun n => Z.of_nat n; w_reads := 0; w_io := [] |}.

(** A language model whose project plans are not JSON. *)
Definition llm_bad_json : LLMClient :=
  {| Chat := fun _ _ => Ok "[]";
     AnalyzeError := fun _ _ _ => Ok "nil pointer dereference";
     GenerateCommand := fun _ instruction => Ok instruction;
     PlanProject := fun _ _ => Ok "<html>Bad Gateway</html>" |}.

(** The Groq service out of reach, one that answers without a choice, and
    one that answers every request with two choices. *)
Definition api_down : Llm.API :=
  {| Llm.CreateChatCompletion := fun _ _ _ => Err "connection refused" |}.

Definition api_two_choices : Llm.API :=
  {| Llm.CreateChatCompletion := fun _ _ _ => Ok ["true"; "false"] |}.

Definition groq : Llm.GroqClient :=
  {| Llm.client := "gsk_demo"; Llm.model := "llama-3.1-8b-instant" |}.

Definition s_groq (api : Llm.API) : System Demo.rt :=
  NewSystem Demo.rt (Llm.asLLMClient api groq).

Definition fix_task (id workspaceDir : string) : Task :=
  new_task id DebugAgent "Fix error in code"
    {[ "error_output" := VString "undefined: x";
       "workspace_dir" := VString workspaceDir ]} 0.

Definition create_task (id path : string) : Task :=
  new_task id FileAgent "Create a file"
    {[ "operation" := VString "create"; "path" := VString path;
       "workspace_dir" := VString "/ws" ]} 0.


Definition command_request (command args : string) : Server.Request :=
  {| Server.ReqType := ""; Server.ReqCommand := command;
     Server.ReqArgs := args; Server.ReqRequest := "";
     Server.ReqWorkspaceDir := "/ws"; Server.ReqModel := "";
     Server.ReqData := ∅ |}.

(** A handler that answers every request with the health body. *)
Definition health_handler (_ : string) (rw : Server.ResponseWriter) (st : unit)
    : Server.ResponseWriter * unit :=
  (Server.handleHealth rw, st).

End DemoMore.
(** * Properties of the orchestrator *)

Section OrchestratorFacts.
Context {rt : GoRuntime}.
Implicit Types (s : System rt) (w : World rt) (task : Task) (agent : Agent rt).

(** [ExecuteTask] with a registered agent, step by step. *)
Lemma ExecuteTask_registered task s w agent :
  agents s !! Type_ task = Some agent →
  ExecuteTask task s w =
    let running := running_task task w in
    let s1 := record_event (Invoke running)
                (record_event (SetStatus (ID task) TaskRunning) s) in
    match Execute agent running (time_Now w).2 with
    | (Err err, w2) =>
        (FailureWith (soft_failure err) err,
         set_Result (soft_failure err) (set_Status TaskFailed running),
         record_event (SetStatus (ID task) TaskFailed) s1, w2)
    | (Ok result, w2) =>
        (Return result,
         set_UpdatedAt (time_Now w2).1
           (set_Result result (set_Status TaskCompleted running)),
         store_result (ID task) result
           (record_event (SetStatus (ID task) TaskCompleted) s1),
         (time_Now w2).2)
    end.
Proof.
  intros Hreg. unfold ExecuteTask, call_Execute, assign_Status, running_task.
  rewrite Hreg. cbn.
  destruct (Execute agent _ _) as [[result|err] w2]; reflexivity.
Qed.

(** C1 (as amended). A task that is Pending when [ExecuteTask] receives it,
    and whose kind has a registered agent, goes Pending, Running, final: the
    status is written twice, the agent is called in between and sees the
    task Running, and nothing is written after the final status. The final
    status is Completed exactly when the agent returned a task result
    (whatever its [Success]) and Failed exactly when it raised an error. *)
Theorem executeTask_status_transitions task s w agent :
  agents s !! Type_ task = Some agent →
  Status task = TaskPending →
  let running := running_task task w in
  let '(out, task', s', w') := ExecuteTask task s w in
  ∃ final : TaskStatus,
    trace s' =
      trace s ++ [SetStatus (ID task) TaskRunning; Invoke running;
                  SetStatus (ID task) final]
    ∧ [Status task; Status running; Status task'] =
      [TaskPending; TaskRunning; final]
    ∧ (final = TaskCompleted ↔ ∃ r, agent_return agent task w = Ok r)
    ∧ (final = TaskFailed ↔ ∃ e, agent_return agent task w = Err e).
Proof.
  intros Hreg Hpending running.
  rewrite (ExecuteTask_registered _ _ _ _ Hreg). cbn zeta.
  unfold agent_return. fold running.
  destruct (Execute agent running _) as [[result|err] w2]; cbn.
  - exists TaskCompleted. rewrite Hpending, <- !app_assoc. cbn.
    repeat split; eauto; try discriminate.
    intros [e He]. discriminate.
  - exists TaskFailed. rewrite Hpending, <- !app_assoc. cbn.
    repeat split; eauto; try discriminate.
    intros [r Hr]. discriminate.
Qed.

(** C4 (as amended). With a registered agent, a task result the agent
    returned (successful or not) is stored under the task's id and
    [GetTaskResult] finds it; when the agent raised an error the result
    store is left as it was, the failure result being returned and attached
    to the task only. *)
Theorem executeTask_stores_returned_result task s w agent :
  agents s !! Type_ task = Some agent →
  let '(out, task', s', w') := ExecuteTask task s w in
  match agent_return agent task w with
  | Ok r =>
      out = Return r ∧ GetTaskResult (ID task) s' = Some r
  | Err e =>
      out = FailureWith (soft_failure e) e
      ∧ Result task' = Some (soft_failure e)
      ∧ results s' = results s
  end.
Proof.
  intros Hreg. rewrite (ExecuteTask_registered _ _ _ _ Hreg). cbn zeta.
  unfold agent_return.
  destruct (Execute agent _ _) as [[result|err] w2]; cbn.
  - split; [reflexivity|]. unfold GetTaskResult. cbn. apply lookup_insert_eq.
  - auto.
Qed.

(** The loop of [ExecuteTaskChain] only appends to the slice it is given. *)
Lemma ExecuteTaskChain_loop_acc (tasks : list Task) (acc : list TaskResult) s w :
  ExecuteTaskChain_loop acc tasks s w =
    let '((rs, e), ts, s', w') := ExecuteTaskChain_loop [] tasks s w in
    ((acc ++ rs, e), ts, s', w').
Proof.
  revert acc s w. induction tasks as [|task rest IH]; intros acc s w; cbn.
  - by rewrite app_nil_r.
  - destruct (ExecuteTask task s w) as [[[out task'] s1] w1].
    destruct out as [err|r err|r]; cbn; rewrite ?app_nil_r; try reflexivity.
    destruct (Success r); cbn; [|reflexivity].
    rewrite (IH (acc ++ [r])), (IH [r]).
    destruct (ExecuteTaskChain_loop [] rest s1 w1) as [[[[rs e] ts] s2] w2].
    by rewrite <- app_assoc.
Qed.

(** C3 (as amended). [ExecuteTaskChain] runs the tasks in order through
    [ExecuteTask], each in the state the one before left. Let the tasks
    [pre] all return successful results [rs], and let [t] come next. If [t]
    returns a result with [Success] false, the chain returns [rs] and that
    result, no error, in the state [t] left: the tasks [post] are not
    touched and no agent is called for them. If [t] fails hard (its agent
    raises an error, or no agent is registered), the chain returns [rs]
    alone, without the failing result, together with the error, again in
    the state [t] left. If [t] succeeds the chain goes on with [post]. *)
Theorem executeChain_fail_fast (pre post : list Task) (t : Task) s w :
  let '((rs, e), pre', s1, w1) := ExecuteTaskChain pre s w in
  e = None →
  Forall (λ r, Success r = true) rs →
  let '(out, t', s2, w2) := ExecuteTask t s1 w1 in
  ExecuteTaskChain (pre ++ t :: post) s w =
    match out with
    | Return r =>
        if Success r then
          let '((rs', e'), post', s3, w3) := ExecuteTaskChain post s2 w2 in
          ((rs ++ r :: rs', e'), pre' ++ t' :: post', s3, w3)
        else ((rs ++ [r], None), pre' ++ t' :: post, s2, w2)
    | FailureWith _ err => ((rs, Some err), pre' ++ t' :: post, s2, w2)
    | Failure err => ((rs, Some err), pre' ++ t' :: post, s2, w2)
    end.
Proof.
  revert s w. induction pre as [|a pre IH]; intros s w.
  - cbn. intros _ _.
    destruct (ExecuteTask t s w) as [[[out t'] s2] w2].
    unfold ExecuteTaskChain. cbn.
    destruct out as [err|r err|r]; try reflexivity.
    destruct (Success r); cbn; [|reflexivity].
    rewrite (ExecuteTaskChain_loop_acc post [r]).
    by destruct (ExecuteTaskChain_loop [] post s2 w2) as [[[[rs e] ts] s3] w3].
  - unfold ExecuteTaskChain in *. cbn.
    destruct (ExecuteTask a s w) as [[[outa a'] sa] wa].
    destruct outa as [err|r err|r]; try (intros; discriminate).
    destruct (Success r) eqn:Hr; cbn.
    2:{ intros _ Hall. apply Forall_cons in Hall as [Hall _]. congruence. }
    rewrite (ExecuteTaskChain_loop_acc pre [r]),
      (ExecuteTaskChain_loop_acc (pre ++ t :: post) [r]).
    specialize (IH sa wa).
    destruct (ExecuteTaskChain_loop [] pre sa wa) as [[[[rs e] pre'] s1] w1].
    intros He Hall. apply Forall_cons in Hall as [_ Hall].
    specialize (IH He Hall).
    destruct (ExecuteTask t s1 w1) as [[[out t'] s2] w2].
    rewrite IH.
    destruct out as [err|r' err|r']; try reflexivity.
    destruct (Success r'); [|reflexivity].
    by destruct (ExecuteTaskChain_loop [] post s2 w2) as [[[[rs' e'] ts] s3] w3].
Qed.

End OrchestratorFacts.

(** * Properties of the command executor and the terminal agent *)

Section ExecutorFacts.
Context {rt : GoRuntime}.
Implicit Types (w : World rt).

Lemma folded_error_nonempty (err : RunError) (stderr : string) :
  RunError_Error err +:+ ": " +:+ stderr ≠ "".
Proof. destruct (RunError_Error err); discriminate. Qed.

(** [ExecuteCommand], step by step. *)
Lemma ExecuteCommand_unfold (command dir : string) w :
  CommandExecutorImpl_ExecuteCommand rt command dir w =
    let run := cmd_Run rt (w_os w) command dir in
    let result :=
      {| CmdID := "cmd_" +:+ pretty (time_Now w).1; CmdCommand := command;
         WorkingDir := dir; CmdStatus := "completed"; Output := pr_stdout run;
         CmdError := pr_stderr run; CmdCreatedAt := (time_Now w).1 |} in
    (Ok match pr_err run with
        | Some err => set_failed err (pr_stderr run) result
        | None => result
        end,
     set_os (pr_os run) (log_io (ShRun command dir) (time_Now w).2)).
Proof. reflexivity. Qed.

(** C6 (as amended). [ExecuteCommand] never returns an error, whatever
    [cmd.Run] reports: when the command exits with a non-zero status, and
    just as well when the shell could not be started, it returns a record
    with status [failed] whose error field is the error of [cmd.Run], a
    colon and the captured stderr; otherwise the status is [completed] and
    the error field is the captured stderr. *)
Theorem executeCommand_never_raises (command dir : string) w :
  let run := cmd_Run rt (w_os w) command dir in
  ∃ c w',
    CommandExecutorImpl_ExecuteCommand rt command dir w = (Ok c, w')
    ∧ CmdCommand c = command ∧ WorkingDir c = dir ∧ Output c = pr_stdout run
    ∧ match pr_err run with
      | Some err =>
          CmdStatus c = "failed"
          ∧ CmdError c = RunError_Error err +:+ ": " +:+ pr_stderr run
      | None => CmdStatus c = "completed" ∧ CmdError c = pr_stderr run
      end.
Proof.
  intros run. rewrite ExecuteCommand_unfold. cbn zeta. fold run.
  eexists _, _. split; [reflexivity|].
  destruct (pr_err run); cbn; auto.
Qed.

(** The loop of [ExecuteCommands] only appends to the slice it is given. *)
Lemma ExecuteCommands_loop_acc (commands : list string) (acc : list Command)
    (dir : string) w :
  ExecuteCommands_loop rt acc commands dir w =
    let '((rs, e), w') := ExecuteCommands_loop rt [] commands dir w in
    ((acc ++ rs, e), w').
Proof.
  revert acc w. induction commands as [|c rest IH]; intros acc w; cbn.
  - by rewrite app_nil_r.
  - case_bool_decide; cbn; [reflexivity|].
    rewrite (IH (acc ++ [_])), (IH [_]).
    destruct (ExecuteCommands_loop rt [] rest dir _) as [[rs e] w'].
    by rewrite <- app_assoc.
Qed.



(** C5 (as amended). When the instruction is present and the language model
    produced a command, the terminal agent returns a task result whose
    [Success] is true exactly when the command ran and exited with status
    zero and its captured stderr is empty. A command that exits with a
    non-zero status gives [Success] false even when it wrote nothing to
    stderr. *)
Theorem terminal_success_iff (llm : LLMClient) (task : Task) w
    (instruction command : string) :
  as_string (Data task !! "instruction") = Some instruction →
  GenerateCommand llm (w_io w) instruction = Ok command →
  let dir := default "." (as_string (Data task !! "workspace_dir")) in
  let run := cmd_Run rt (w_os w) command dir in
  ∃ r w',
    TerminalAgentImpl_Execute rt (NewCommandExecutor rt) llm task w = (Ok r, w')
    ∧ (Success r = true ↔ pr_err run = None ∧ pr_stderr run = "")
    ∧ ResultData r !! "command" = Some (VString command)
    ∧ ResultData r !! "output" = Some (VString (pr_stdout run)).
Proof.
  intros Hinstr Hgen dir run.
  unfold TerminalAgentImpl_Execute, call_GenerateCommand.
  rewrite Hinstr, Hgen. cbn [ExecuteCommand NewCommandExecutor].
  rewrite ExecuteCommand_unfold. cbn zeta. cbn [w_os set_os log_io time_Now fst snd].
  fold dir. fold run.
  eexists _, _. split; [reflexivity|]. cbn [Success ResultData].
  destruct (pr_err run) as [err|]; cbn [Output CmdError set_failed].
  - split; [|split; reflexivity]. split.
    + intros Hempty. apply bool_decide_eq_true in Hempty.
      by apply folded_error_nonempty in Hempty.
    + intros [? _]. discriminate.
  - split; [|split; reflexivity].
    rewrite bool_decide_eq_true. tauto.
Qed.

End ExecutorFacts.

(** * Properties of the file manager and the file agent *)

Section FileFacts.
Context {rt : GoRuntime}.
Implicit Types (w : World rt).

(** C8 (as amended). What [UpdateFile] does is decided by [os.Stat]. When
    [os.Stat] reports that the target does not exist, [UpdateFile] fails
    with the error that the file does not exist and leaves the machine as
    it was: nothing is written, the file is not created; the file agent
    reports this as a task result with [Success] false carrying that
    error. In every other case, a failure of [os.Stat] for another reason
    included, the target counts as existing: [UpdateFile] hands the path to
    [os.WriteFile] and returns what that returns, and the file agent
    reports success exactly when [os.WriteFile] did not fail. *)
Theorem update_of_missing_file_fails (path content : string) w :
  (FileManagerImpl_FileExists rt path w = false ↔
     ∃ err, os_Stat rt (w_os w) path = Some err ∧ oserr_not_exist err = true)
  ∧ (FileManagerImpl_FileExists rt path w = false →
       FileManagerImpl_UpdateFile rt path content w =
         (Some ("file does not exist: " +:+ path), w)
       ∧ (∀ task workspaceDir rel,
            as_string (Data task !! "operation") = Some "update" →
            as_string (Data task !! "path") = Some rel →
            as_string (Data task !! "content") = Some content →
            as_string (Data task !! "workspace_dir") = Some workspaceDir →
            filepath_Join rt workspaceDir rel = path →
            FileAgentImpl_Execute rt (NewFileManager rt) task w =
              (Ok {| Success := false; ResultData := ∅;
                     Error := "file does not exist: " +:+ path |}, w)))
  ∧ (FileManagerImpl_FileExists rt path w = true →
       let written := os_WriteFile rt (w_os w) path content in
       FileManagerImpl_UpdateFile rt path content w =
         (written.1, set_os written.2 w)
       ∧ (∀ task workspaceDir rel,
            as_string (Data task !! "operation") = Some "update" →
            as_string (Data task !! "path") = Some rel →
            as_string (Data task !! "content") = Some content →
            as_string (Data task !! "workspace_dir") = Some workspaceDir →
            filepath_Join rt workspaceDir rel = path →
            FileAgentImpl_Execute rt (NewFileManager rt) task w =
              (Ok match written.1 with
                  | Some err => soft_failure err
                  | None =>
                      {| Success := true;
                         ResultData := {[ "path" := VString path;
                                          "updated" := VBool true ]};
                         Error := "" |}
                  end, set_os written.2 w))).
Proof.
  split; [|split].
  - unfold FileManagerImpl_FileExists, os_IsNotExist.
    rewrite negb_false_iff.
    destruct (os_Stat rt (w_os w) path) as [err|]; split.
    + intros H. by exists err.
    + by intros (err' & [= <-] & H).
    + discriminate.
    + by intros (err' & [=] & _).
  - intros Hmissing.
    assert (Hupd : FileManagerImpl_UpdateFile rt path content w =
                     (Some ("file does not exist: " +:+ path), w)).
    { unfold FileManagerImpl_UpdateFile. by rewrite Hmissing. }
    split; [exact Hupd|].
    intros task workspaceDir rel Hop Hpath Hcontent Hdir Hjoin.
    unfold FileAgentImpl_Execute. rewrite Hop. cbn.
    unfold handleUpdateFile. rewrite Hpath, Hcontent, Hdir, Hjoin.
    cbn [UpdateFile NewFileManager]. by rewrite Hupd.
  - intros Hexists written.
    assert (Hupd : FileManagerImpl_UpdateFile rt path content w =
                     (written.1, set_os written.2 w)).
    { unfold FileManagerImpl_UpdateFile. rewrite Hexists. cbn [negb].
      subst written. by destruct (os_WriteFile rt (w_os w) path content). }
    split; [exact Hupd|].
    intros task workspaceDir rel Hop Hpath Hcontent Hdir Hjoin.
    unfold FileAgentImpl_Execute. rewrite Hop. cbn.
    unfold handleUpdateFile. rewrite Hpath, Hcontent, Hdir, Hjoin.
    cbn [UpdateFile NewFileManager]. rewrite Hupd.
    by destruct (written.1).
Qed.

End FileFacts.

(** * Properties of the entry points *)

Section StringFacts.

Lemma strings_HasPrefix_spec (s prefix : string) :
  strings_HasPrefix s prefix = true ↔ ∃ after, s = prefix +:+ after.
Proof.
  unfold strings_HasPrefix. revert s.
  induction prefix as [|c prefix IH]; intros s; cbn.
  - destruct s; split; eauto.
  - destruct s as [|c' s]; cbn.
    + split; [discriminate|]. intros [after H].
      change (EmptyString = String c (prefix +:+ after)) in H. discriminate.
    + destruct (Ascii.ascii_dec c c') as [->|Hne].
      * rewrite IH. split; intros [after H]; exists after.
        -- by rewrite H.
        -- change (String c' s = String c' (prefix +:+ after)) in H.
           congruence.
      * split; [discriminate|]. intros [after H].
        change (String c' s = String c (prefix +:+ after)) in H. congruence.
Qed.

Lemma strings_Contains_spec (s sub : string) :
  strings_Contains s sub = true ↔ contains s sub.
Proof.
  unfold contains. induction s as [|c s IH]; cbn [strings_Contains].
  - rewrite orb_false_r, strings_HasPrefix_spec. split.
    + intros [after H]. by exists "", after.
    + intros ([|] & after & H); [by exists after | discriminate].
  - rewrite orb_true_iff, strings_HasPrefix_spec, IH. split.
    + intros [[after H] | (before & after & H)].
      * by exists "", after.
      * exists (String c before), after. cbn. by rewrite H.
    + intros ([|c' before] & after & H).
      * left. by exists after.
      * right. cbn in H. injection H as _ H. by exists before, after.
Qed.

Lemma isTerminalIntent_spec (rt : GoRuntime) (request : string) :
  isTerminalIntent rt request = true ↔ has_terminal_phrase rt request.
Proof.
  unfold isTerminalIntent, has_terminal_phrase. rewrite existsb_exists.
  split; intros (k & Hk & Hc); exists k.
  - by rewrite list_elem_of_In, <- strings_Contains_spec.
  - by rewrite <- list_elem_of_In, strings_Contains_spec.
Qed.

End StringFacts.

Section EntryPointFacts.
Context {rt : GoRuntime}.
Implicit Types (s : System rt) (w : World rt) (task : Task) (agent : Agent rt).

Lemma standard_agents_lookup (llm : LLMClient) s :
  standard_agents llm s →
  agents s !! PlanningAgent = Some (NewPlanningAgent rt llm)
  ∧ agents s !! TerminalAgent =
      Some (NewTerminalAgent rt (NewCommandExecutor rt) llm)
  ∧ agents s !! FileAgent = Some (NewFileAgent rt (NewFileManager rt))
  ∧ agents s !! DebugAgent = Some (NewDebugAgent rt llm).
Proof. intros ->. repeat split; reflexivity. Qed.

(** With a registered agent, [ExecuteTask] calls exactly that agent, once. *)
Lemma ExecuteTask_invoked task s w agent :
  agents s !! Type_ task = Some agent →
  invoked (trace (ExecuteTask task s w).1.2) =
    invoked (trace s) ++ [running_task task w].
Proof.
  intros Hreg. rewrite (ExecuteTask_registered _ _ _ _ Hreg). cbn zeta.
  destruct (Execute agent _ _) as [[result|err] w2]; cbn;
    unfold invoked; rewrite !omap_app; cbn; by rewrite !app_nil_r.
Qed.

(** C2. On a system with the agents of [NewSystem], [HandleCommand] with
    the verb [/explain] or [/create-project] builds a planning task whose
    payload has the keys [target] (resp. [description]) and
    [workspace_dir] only; the planning agent wants [request], so the call
    is a hard failure with the error that the request data is not in the
    task, and the language model is never called. *)
Theorem explain_and_create_project_fail (llm : LLMClient) s w
    (command args dir : string) :
  standard_agents llm s →
  command = "/explain" ∨ command = "/create-project" →
  let key := if bool_decide (command = "/explain") then "target"
             else "description" in
  let '(out, s', w') := HandleCommand command args dir s w in
  ∃ t,
    invoked (trace s') = invoked (trace s) ++ [t]
    ∧ Type_ t = PlanningAgent
    ∧ Data t = {[ key := VString args; "workspace_dir" := VString dir ]}
    ∧ Data t !! "request" = None
    ∧ out = FailureWith (soft_failure "request data not found in task")
              "request data not found in task"
    ∧ w_io w' = w_io w.
Proof.
  intros Hstd Hcommand key.
  destruct (standard_agents_lookup llm s Hstd) as (Hplanning & _).
  destruct Hcommand as [-> | ->]; subst key; cbn [bool_decide];
    unfold HandleCommand; repeat (case_bool_decide; try done);
    unfold handleExplainCommand, handleCreateProjectCommand, generateTaskID;
    cbn [time_Now fst snd].
  all: match goal with
       | |- context [ExecuteTask ?t ?s0 ?w0] =>
           pose proof (ExecuteTask_invoked t s0 w0 _ Hplanning) as Hinv;
           rewrite (ExecuteTask_registered t s0 w0 _ Hplanning) in *
       end.
  all: cbn zeta in *; cbn [Execute NewPlanningAgent] in *;
    unfold PlanningAgentImpl_Execute in *.
  all: match goal with
       | |- context [as_string (Data ?t !! "request")] =>
           change (as_string (Data t !! "request")) with (@None string) in *
       end.
  all: cbn iota beta in *; eexists; split; [exact Hinv|].
  all: repeat split; reflexivity.
Qed.

(** [ProcessUserRequest], branch by branch, on a system with the agents of
    [NewSystem]: the task built, the task handed to the agent, and the
    outcome, result store and world the agent's run leaves. *)
Lemma ProcessUserRequest_executes (llm : LLMClient) s w (request dir : string) :
  standard_agents llm s →
  let '(out, s', w') := ProcessUserRequest request dir s w in
  let built := (time_Now (time_Now w).2).2 in
  let terminal := isTerminalIntent rt request in
  let t :=
    running_task
      (new_task (generateTaskID w).1
         (if terminal then TerminalAgent else PlanningAgent)
         (if terminal then "Execute terminal command (intent classified)"
          else "Plan and execute user request")
         {[ (if terminal then "instruction" else "request") := VString request;
            "workspace_dir" := VString dir ]}
         (time_Now (time_Now w).2).1) built in
  invoked (trace s') = invoked (trace s) ++ [t]
  ∧ (has_terminal_phrase rt request →
       executed_with
         (TerminalAgentImpl_Execute rt (NewCommandExecutor rt) llm)
         (λ e, FailureWith (soft_failure e) e)
         t (time_Now built).2 s out s' w')
  ∧ (¬ has_terminal_phrase rt request →
       executed_with (PlanningAgentImpl_Execute rt llm)
         (λ e, Failure ("failed to process request: " +:+ e))
         t (time_Now built).2 s out s' w').
Proof.
  intros Hstd.
  destruct (standard_agents_lookup llm s Hstd) as (Hplanning & Hterminal & _).
  unfold ProcessUserRequest.
  destruct (isTerminalIntent rt request) eqn:Hintent.
  - apply isTerminalIntent_spec in Hintent.
    unfold generateTaskID. cbn [time_Now fst snd].
    match goal with
    | |- context [ExecuteTask ?t ?s0 ?w0] =>
        pose proof (ExecuteTask_invoked t s0 w0 _ Hterminal) as Hinv;
        rewrite (ExecuteTask_registered t s0 w0 _ Hterminal) in *
    end.
    cbn zeta in *. cbn [Execute NewTerminalAgent] in *.
    unfold executed_with.
    destruct (TerminalAgentImpl_Execute _ _ _ _ _) as [[r|e] w2];
      (split; [exact Hinv|]); (split; [|done]); intros _; by split_and!.
  - assert (Hno : ¬ has_terminal_phrase rt request).
    { rewrite <- isTerminalIntent_spec. congruence. }
    unfold generateTaskID. cbn [time_Now fst snd].
    match goal with
    | |- context [ExecuteTask ?t ?s0 ?w0] =>
        pose proof (ExecuteTask_invoked t s0 w0 _ Hplanning) as Hinv;
        rewrite (ExecuteTask_registered t s0 w0 _ Hplanning) in *
    end.
    cbn zeta in *. cbn [Execute NewPlanningAgent] in *.
    unfold executed_with.
    destruct (PlanningAgentImpl_Execute _ _ _ _) as [[r|e] w2];
      (split; [exact Hinv|]); (split; [done|]); intros _; by split_and!.
Qed.

(** C9. On a system with the agents of [NewSystem], [ProcessUserRequest]
    builds and executes exactly one task: a terminal task carrying the
    request as its instruction if and only if the lower-cased request
    contains one of the terminal phrases, and otherwise a planning task
    carrying the raw request. Executes: the outcome, the result store and
    the world returned are those the run of the terminal agent, resp. of
    the planning agent, on that task leaves. Where [strings.ToLower] leaves
    lower-case ASCII text as it is, the request
    [please open terminal and list files] is dispatched to the terminal
    agent (the planning agent is not called) and
    [help me understand this module] to the planning agent. *)
Theorem route_dispatch (llm : LLMClient) s w (dir : string) :
  standard_agents llm s →
  (∀ request,
     let '(out, s', w') := ProcessUserRequest request dir s w in
     let handed := (time_Now (time_Now (time_Now w).2).2).2 in
     ∃ t,
       invoked (trace s') = invoked (trace s) ++ [t]
       ∧ (Type_ t = TerminalAgent ↔ has_terminal_phrase rt request)
       ∧ (Type_ t = PlanningAgent ↔ ¬ has_terminal_phrase rt request)
       ∧ (has_terminal_phrase rt request →
            Data t = {[ "instruction" := VString request;
                        "workspace_dir" := VString dir ]})
       ∧ (¬ has_terminal_phrase rt request →
            Data t = {[ "request" := VString request;
                        "workspace_dir" := VString dir ]})
       ∧ ID t = (generateTaskID w).1
       ∧ Status t = TaskRunning
       ∧ (has_terminal_phrase rt request →
            executed_with
              (TerminalAgentImpl_Execute rt (NewCommandExecutor rt) llm)
              (λ e, FailureWith (soft_failure e) e) t handed s out s' w')
       ∧ (¬ has_terminal_phrase rt request →
            executed_with (PlanningAgentImpl_Execute rt llm)
              (λ e, Failure ("failed to process request: " +:+ e))
              t handed s out s' w'))
  ∧ (ToLower_keeps_lower_ascii rt →
     let handed := (time_Now (time_Now (time_Now w).2).2).2 in
     (∃ t,
        invoked (trace (ProcessUserRequest
                          "please open terminal and list files" dir s w).1.2) =
          invoked (trace s) ++ [t]
        ∧ Type_ t = TerminalAgent
        ∧ executed_with
            (TerminalAgentImpl_Execute rt (NewCommandExecutor rt) llm)
            (λ e, FailureWith (soft_failure e) e) t handed s
            (ProcessUserRequest
               "please open terminal and list files" dir s w).1.1
            (ProcessUserRequest
               "please open terminal and list files" dir s w).1.2
            (ProcessUserRequest
               "please open terminal and list files" dir s w).2)
     ∧ (∃ t,
          invoked (trace (ProcessUserRequest
                            "help me understand this module" dir s w).1.2) =
            invoked (trace s) ++ [t]
          ∧ Type_ t = PlanningAgent
          ∧ executed_with (PlanningAgentImpl_Execute rt llm)
              (λ e, Failure ("failed to process request: " +:+ e)) t handed s
              (ProcessUserRequest
                 "help me understand this module" dir s w).1.1
              (ProcessUserRequest
                 "help me understand this module" dir s w).1.2
              (ProcessUserRequest
                 "help me understand this module" dir s w).2)).
Proof.
  intros Hstd.
  assert (Hgeneral : ∀ request,
     let '(out, s', w') := ProcessUserRequest request dir s w in
     let handed := (time_Now (time_Now (time_Now w).2).2).2 in
     ∃ t,
       invoked (trace s') = invoked (trace s) ++ [t]
       ∧ (Type_ t = TerminalAgent ↔ has_terminal_phrase rt request)
       ∧ (Type_ t = PlanningAgent ↔ ¬ has_terminal_phrase rt request)
       ∧ (has_terminal_phrase rt request →
            Data t = {[ "instruction" := VString request;
                        "workspace_dir" := VString dir ]})
       ∧ (¬ has_terminal_phrase rt request →
            Data t = {[ "request" := VString request;
                        "workspace_dir" := VString dir ]})
       ∧ ID t = (generateTaskID w).1
       ∧ Status t = TaskRunning
       ∧ (has_terminal_phrase rt request →
            executed_with
              (TerminalAgentImpl_Execute rt (NewCommandExecutor rt) llm)
              (λ e, FailureWith (soft_failure e) e) t handed s out s' w')
       ∧ (¬ has_terminal_phrase rt request →
            executed_with (PlanningAgentImpl_Execute rt llm)
              (λ e, Failure ("failed to process request: " +:+ e))
              t handed s out s' w')).
  { intros request.
    pose proof (ProcessUserRequest_executes llm s w request dir Hstd) as H.
    destruct (ProcessUserRequest request dir s w) as [[out s'] w'].
    cbv zeta in H. destruct H as (Hinv & Hterm & Hplan).
    eexists. split; [exact Hinv|].
    destruct (isTerminalIntent rt request) eqn:Hintent;
      cbn [Type_ Data ID Status running_task new_task set_UpdatedAt set_Status].
    - apply isTerminalIntent_spec in Hintent.
      split_and!; done.
    - assert (Hno : ¬ has_terminal_phrase rt request).
      { rewrite <- isTerminalIntent_spec. congruence. }
      split_and!; done. }
  split; [exact Hgeneral|].
  intros Hlower handed.
  assert (Hyes : has_terminal_phrase rt "please open terminal and list files").
  { exists "open terminal". split.
    - unfold keywords. set_solver.
    - rewrite Hlower by reflexivity. by apply strings_Contains_spec. }
  assert (Hno : ¬ has_terminal_phrase rt "help me understand this module").
  { rewrite <- isTerminalIntent_spec. unfold isTerminalIntent.
    rewrite Hlower by reflexivity. by vm_compute. }
  split.
  - pose proof (Hgeneral "please open terminal and list files") as H.
    destruct (ProcessUserRequest _ dir s w) as [[out s'] w'].
    cbv zeta in H.
    destruct H as (t & Hinv & [_ Hkind] & _ & _ & _ & _ & _ & Hrun & _).
    exists t. split; [exact Hinv|]. split; [by apply Hkind|]. by apply Hrun.
  - pose proof (Hgeneral "help me understand this module") as H.
    destruct (ProcessUserRequest _ dir s w) as [[out s'] w'].
    cbv zeta in H.
    destruct H as (t & Hinv & _ & [_ Hkind] & _ & _ & _ & _ & _ & Hrun).
    exists t. split; [exact Hinv|]. split; [by apply Hkind|]. by apply Hrun.
Qed.

(** C10. [HandleCommand] follows the dispatch table: the verbs [/fix],
    [/run], [/explain] and [/create-project] are mapped to [ExecuteTask] of
    a new Pending task of kind debug, terminal, planning and planning,
    whose payload holds [args] under the key [error_output] (the
    specification's [errorOutput]), [instruction], [target] and
    [description] respectively, and the workspace directory; any other
    verb gives the hard failure naming the unknown command, and nothing is
    executed or changed. *)
Theorem dispatchCommand_table (command args dir : string) s w :
  HandleCommand command args dir s w =
    match assoc command dispatch_table with
    | Some (kind, key, description) =>
        let '(id, w1) := generateTaskID w in
        let '(now, w2) := time_Now w1 in
        let task :=
          {| ID := id; Type_ := kind; Description := description;
             Data := {[ key := VString args;
                        "workspace_dir" := VString dir ]};
             Status := TaskPending; CreatedAt := now; UpdatedAt := 0;
             Result := None |} in
        let '(out, _, s', w') := ExecuteTask task s w2 in
        (out, s', w')
    | None => (Failure ("unknown command: " +:+ command), s, w)
    end.
Proof.
  unfold HandleCommand. cbn [assoc dispatch_table].
  repeat case_bool_decide; subst; try done.
Qed.

End EntryPointFacts.

(** * The properties on the small machine *)

Lemma demo_standard : standard_agents Demo.llm Demo.s0.
Proof. reflexivity. Qed.

Lemma demo_planning_registered :
  agents Demo.s0 !! PlanningAgent = Some (NewPlanningAgent Demo.rt Demo.llm).
Proof. reflexivity. Qed.

Lemma demo_ToLower : ToLower_keeps_lower_ascii Demo.rt.
Proof.
  intros s. cbn. induction s as [|c s IH]; cbn; [done|].
  intros [Hc Hs]%andb_true_iff. rewrite (IH Hs). f_equal.
  unfold lower_ascii_byte in Hc. unfold Demo.lower_byte.
  apply andb_true_iff in Hc as [_ Hc]. apply negb_true_iff in Hc.
  by rewrite Hc.
Qed.

(** C1, the claim as written fails: the file agent returns a result with
    [Success] false for an update of a file that is not there, and the task
    ends Completed, not Failed. *)
Lemma executeTask_soft_failure_is_completed :
  (ExecuteTask (Demo.file_update_task "t3" "absent.go")
     Demo.s0 Demo.w0).1.1.1 = Return (soft_failure Demo.missing_file)
  ∧ Success (soft_failure Demo.missing_file) = false
  ∧ Status (ExecuteTask (Demo.file_update_task "t3" "absent.go")
              Demo.s0 Demo.w0).1.1.2 = TaskCompleted
  ∧ Status (ExecuteTask (Demo.file_update_task "t3" "absent.go")
              Demo.s0 Demo.w0).1.1.2 ≠ TaskFailed.
Proof.
  assert (Hstatus : Status (ExecuteTask (Demo.file_update_task "t3" "absent.go")
                              Demo.s0 Demo.w0).1.1.2 = TaskCompleted)
    by (vm_compute; reflexivity).
  split; [vm_compute; reflexivity|].
  split; [reflexivity|]. split; [exact Hstatus|].
  rewrite Hstatus. discriminate.
Qed.

(** C1 on a planning task of the small machine: Pending, then Completed. *)
Lemma executeTask_status_transitions_witness :
  Status (Demo.plan_task "t1" "add a readme") = TaskPending
  ∧ Status (ExecuteTask (Demo.plan_task "t1" "add a readme")
              Demo.s0 Demo.w0).1.1.2 = TaskCompleted.
Proof.
  split; [reflexivity|].
  pose proof (executeTask_status_transitions
                (Demo.plan_task "t1" "add a readme") Demo.s0 Demo.w0 _
                demo_planning_registered eq_refl) as H.
  cbv zeta in H.
  destruct (ExecuteTask _ _ _) as [[[out task'] s'] w'].
  destruct H as (final & _ & Hstatus & [_ Hcompleted] & _).
  injection Hstatus as Hfinal. cbn [fst snd]. rewrite Hfinal.
  apply Hcompleted. eexists. vm_compute. reflexivity.
Defined.

(** C4, the claim as written fails: after a hard failure (a planning task
    without [request]) a failure result was produced and returned, yet the
    result store has nothing under the task's id. *)
Lemma executeTask_hard_failure_not_stored :
  (ExecuteTask (Demo.explain_task "t2" "main.go") Demo.s0 Demo.w0).1.1.1 =
    FailureWith (soft_failure Demo.missing_request) Demo.missing_request
  ∧ GetTaskResult "t2"
      (ExecuteTask (Demo.explain_task "t2" "main.go") Demo.s0 Demo.w0).1.2 =
      None.
Proof. split; vm_compute; reflexivity. Qed.

(** C4 on the same task: the plan is found under the task's id. *)
Lemma executeTask_stores_returned_result_witness :
  GetTaskResult "t1"
    (ExecuteTask (Demo.plan_task "t1" "add a readme") Demo.s0 Demo.w0).1.2 =
    Some Demo.plan_result.
Proof.
  pose proof (executeTask_stores_returned_result
                (Demo.plan_task "t1" "add a readme") Demo.s0 Demo.w0 _
                demo_planning_registered) as H.
  destruct (ExecuteTask _ _ _) as [[[out task'] s'] w'].
  assert (Hret : agent_return (NewPlanningAgent Demo.rt Demo.llm)
                   (Demo.plan_task "t1" "add a readme") Demo.w0 =
                 Ok Demo.plan_result) by (vm_compute; reflexivity).
  rewrite Hret in H. exact (proj2 H).
Defined.

(** C3, the claim as written fails: when the second task fails hard, the
    chain returns the first result alone, with the error; the failing
    result, which [ExecuteTask] attached to the task, is not in the list. *)
Lemma executeChain_hard_failure_result_dropped :
  (ExecuteTaskChain
     [Demo.plan_task "t1" "add a readme"; Demo.explain_task "t2" "main.go";
      Demo.plan_task "t3" "add tests"] Demo.s0 Demo.w0).1.1.1 =
    ([Demo.plan_result], Some Demo.missing_request)
  ∧ Result <$>
      (ExecuteTaskChain
         [Demo.plan_task "t1" "add a readme"; Demo.explain_task "t2" "main.go";
          Demo.plan_task "t3" "add tests"] Demo.s0 Demo.w0).1.1.2 !! 1 =
      Some (Some (soft_failure Demo.missing_request))
  ∧ Success (soft_failure Demo.missing_request) = false.
Proof. repeat split; vm_compute; reflexivity. Qed.

(** C3 on a chain whose second task fails softly: two results, and the
    agents of the first two tasks only were called. *)
Lemma executeChain_fail_fast_witness :
  (ExecuteTaskChain
     [Demo.plan_task "t1" "add a readme";
      Demo.file_update_task "t2" "absent.go";
      Demo.plan_task "t3" "add tests"] Demo.s0 Demo.w0).1.1.1 =
    ([Demo.plan_result; soft_failure Demo.missing_file], None)
  ∧ ID <$> invoked (trace
      (ExecuteTaskChain
         [Demo.plan_task "t1" "add a readme";
          Demo.file_update_task "t2" "absent.go";
          Demo.plan_task "t3" "add tests"] Demo.s0 Demo.w0).1.2) =
    ["t1"; "t2"].
Proof.
  pose proof (executeChain_fail_fast
                [Demo.plan_task "t1" "add a readme"]
                [Demo.plan_task "t3" "add tests"]
                (Demo.file_update_task "t2" "absent.go") Demo.s0 Demo.w0) as H.
  set (first := ExecuteTaskChain [Demo.plan_task "t1" "add a readme"]
                  Demo.s0 Demo.w0) in *.
  assert (Hrs : first.1.1.1 = ([Demo.plan_result], None))
    by (vm_compute; reflexivity).
  destruct first as [[[[rs e] pre'] s1] w1] eqn:Efirst.
  injection Hrs as -> ->.
  assert (Hall : Forall (λ r, Success r = true) [Demo.plan_result])
    by (repeat constructor).
  specialize (H eq_refl Hall).
  assert (Hs1 : s1 = first.1.2) by (by rewrite Efirst).
  assert (Hw1 : w1 = first.2) by (by rewrite Efirst).
  set (second := ExecuteTask (Demo.file_update_task "t2" "absent.go") s1 w1) in *.
  assert (Hout : second.1.1.1 = Return (soft_failure Demo.missing_file)).
  { subst second. rewrite Hs1, Hw1. subst first. vm_compute. reflexivity. }
  assert (Hinv : ID <$> invoked (trace second.1.2) = ["t1"; "t2"]).
  { subst second. rewrite Hs1, Hw1. subst first. vm_compute. reflexivity. }
  destruct second as [[[out t'] s2] w2].
  cbn [fst snd] in Hout, Hinv. subst out.
  change (Demo.plan_task "t1" "add a readme"
          :: Demo.file_update_task "t2" "absent.go"
          :: [Demo.plan_task "t3" "add tests"])
    with ([Demo.plan_task "t1" "add a readme"] ++
          Demo.file_update_task "t2" "absent.go"
          :: [Demo.plan_task "t3" "add tests"]).
  rewrite H. split; [reflexivity | exact Hinv].
Defined.

(** C6, the claim as written fails: the shell cannot be started in a
    working directory that does not exist, and [ExecuteCommand] still
    returns a record (status [failed]) and no error; nothing is propagated
    to the caller. *)
Lemma executeCommand_spawn_failure_not_raised :
  pr_err (cmd_Run Demo.rt (w_os Demo.w0) "ls" "/missing") =
    Some (StartError "chdir /missing: no such file or directory")
  ∧ (CommandExecutorImpl_ExecuteCommand Demo.rt "ls" "/missing" Demo.w0).1 =
      Ok {| CmdID := "cmd_1000"; CmdCommand := "ls"; WorkingDir := "/missing";
            CmdStatus := "failed"; Output := "";
            CmdError := "chdir /missing: no such file or directory: ";
            CmdCreatedAt := 1000 |}.
Proof. split; vm_compute; reflexivity. Qed.


(** C5, the claim as written fails: [false] is started, writes nothing to
    stderr and exits with status 1; the captured stderr is empty and
    [Success] is false. *)
Lemma terminal_silent_failure_is_not_success :
  pr_err (cmd_Run Demo.rt (w_os Demo.w0) "false" "/ws") = Some (ExitError 1)
  ∧ pr_stderr (cmd_Run Demo.rt (w_os Demo.w0) "false" "/ws") = ""
  ∧ (TerminalAgentImpl_Execute Demo.rt (NewCommandExecutor Demo.rt) Demo.llm
       (Demo.run_task "t5" "false") Demo.w0).1 =
      Ok {| Success := false;
            ResultData := {[ "command" := VString "false";
                             "output" := VString "";
                             "error" := VString "exit status 1: " ]};
            Error := "" |}.
Proof. repeat split; vm_compute; reflexivity. Qed.

(** C5 on a command that succeeds silently on stderr. *)
Lemma terminal_success_iff_witness :
  ∃ r,
    (TerminalAgentImpl_Execute Demo.rt (NewCommandExecutor Demo.rt) Demo.llm
       (Demo.run_task "t4" "ls") Demo.w0).1 = Ok r
    ∧ Success r = true
    ∧ ResultData r !! "output" = Some (VString "main.go").
Proof.
  destruct (terminal_success_iff (rt := Demo.rt) Demo.llm
              (Demo.run_task "t4" "ls") Demo.w0 "ls" "ls" eq_refl eq_refl)
    as (r & w' & Hexec & Hsuccess & _ & Houtput).
  exists r. rewrite Hexec. split; [reflexivity|]. split; [|exact Houtput].
  apply Hsuccess. split; reflexivity.
Defined.

(** C8, the claim as written fails: on a machine that refuses [os.Stat]
    with a permission error the file [/root/secret] does not exist (the
    file tree is empty), yet the update does not fail with the error that
    the file does not exist: the path counts as existing, it is handed to
    [os.WriteFile], and the task result carries the error of the write. *)
Lemma update_of_missing_file_without_not_found :
  w_os DemoMore.w_denied !! "/root/secret" = None
  ∧ FileManagerImpl_FileExists DemoMore.rt_denied "/root/secret"
      DemoMore.w_denied = true
  ∧ FileManagerImpl_UpdateFile DemoMore.rt_denied "/root/secret"
      "package agent" DemoMore.w_denied =
      (Some "open /root/secret: permission denied", DemoMore.w_denied)
  ∧ FileAgentImpl_Execute DemoMore.rt_denied (NewFileManager DemoMore.rt_denied)
      (new_task "t3" FileAgent "Update a file"
         {[ "operation" := VString "update"; "path" := VString "secret";
            "content" := VString "package agent";
            "workspace_dir" := VString "/root" ]} 0) DemoMore.w_denied =
      (Ok (soft_failure "open /root/secret: permission denied"),
       DemoMore.w_denied)
  ∧ "open /root/secret: permission denied" ≠
      "file does not exist: /root/secret".
Proof. split_and!; try reflexivity. discriminate. Qed.

(** C8 on a file that is not in the workspace. *)
Lemma update_of_missing_file_fails_witness :
  FileManagerImpl_FileExists Demo.rt "/ws/absent.go" Demo.w0 = false
  ∧ FileManagerImpl_UpdateFile Demo.rt "/ws/absent.go" "package agent" Demo.w0 =
      (Some Demo.missing_file, Demo.w0)
  ∧ FileAgentImpl_Execute Demo.rt (NewFileManager Demo.rt)
      (Demo.file_update_task "t3" "absent.go") Demo.w0 =
      (Ok (soft_failure Demo.missing_file), Demo.w0).
Proof.
  destruct (update_of_missing_file_fails (rt := Demo.rt) "/ws/absent.go"
              "package agent" Demo.w0) as (Hstat & Hnot_found & _).
  assert (Hmissing : FileManagerImpl_FileExists Demo.rt "/ws/absent.go" Demo.w0
                     = false).
  { apply Hstat. eexists. split; reflexivity. }
  destruct (Hnot_found Hmissing) as [Hupdate Hagent].
  split; [exact Hmissing|]. split; [exact Hupdate|].
  exact (Hagent (Demo.file_update_task "t3" "absent.go") "/ws" "absent.go"
           eq_refl eq_refl eq_refl eq_refl eq_refl).
Defined.

(** C2 for [/explain]. *)
Lemma explain_and_create_project_fail_witness :
  (HandleCommand "/explain" "main.go" "/ws" Demo.s0 Demo.w0).1.1 =
    FailureWith (soft_failure Demo.missing_request) Demo.missing_request
  ∧ w_io (HandleCommand "/explain" "main.go" "/ws" Demo.s0 Demo.w0).2 = [].
Proof.
  pose proof (explain_and_create_project_fail Demo.llm Demo.s0 Demo.w0
                "/explain" "main.go" "/ws" demo_standard (or_introl eq_refl))
    as H.
  cbv zeta in H.
  destruct (HandleCommand _ _ _ _ _) as [[out s'] w'].
  destruct H as (t & _ & _ & _ & _ & Hout & Hio).
  split; [exact Hout | exact Hio].
Defined.

(** C9: the two requests of the specification. The first is handed to
    the terminal agent, which gives the generated command to the shell; the
    second to the planning agent, whose plan is the outcome. *)
Lemma route_dispatch_witness :
  Type_ <$> invoked (trace (ProcessUserRequest
      "please open terminal and list files" "/ws" Demo.s0 Demo.w0).1.2) =
    [TerminalAgent]
  ∧ shell_runs (w_io (ProcessUserRequest
      "please open terminal and list files" "/ws" Demo.s0 Demo.w0).2) =
    [("please open terminal and list files", "/ws")]
  ∧ Type_ <$> invoked (trace (ProcessUserRequest
      "help me understand this module" "/ws" Demo.s0 Demo.w0).1.2) =
    [PlanningAgent]
  ∧ (ProcessUserRequest
       "help me understand this module" "/ws" Demo.s0 Demo.w0).1.1 =
    Return Demo.plan_result.
Proof.
  destruct (route_dispatch Demo.llm Demo.s0 Demo.w0 "/ws" demo_standard)
    as [_ Hinstance].
  destruct (Hinstance demo_ToLower)
    as [(t1 & Hinv1 & Hkind1 & Hrun1) (t2 & Hinv2 & Hkind2 & Hrun2)].
  set (first := ProcessUserRequest "please open terminal and list files"
                  "/ws" Demo.s0 Demo.w0) in *.
  set (second := ProcessUserRequest "help me understand this module"
                   "/ws" Demo.s0 Demo.w0) in *.
  assert (Ht1 : Data <$> invoked (trace first.1.2) =
                [ {[ "instruction" :=
                       VString "please open terminal and list files";
                     "workspace_dir" := VString "/ws" ]} ])
    by (vm_compute; reflexivity).
  assert (Ht2 : Data <$> invoked (trace second.1.2) =
                [ {[ "request" := VString "help me understand this module";
                     "workspace_dir" := VString "/ws" ]} ])
    by (vm_compute; reflexivity).
  rewrite Hinv1 in Ht1 |- *. rewrite Hinv2 in Ht2 |- *.
  cbn in Ht1, Ht2. injection Ht1 as Ht1. injection Ht2 as Ht2.
  unfold executed_with, TerminalAgentImpl_Execute in Hrun1.
  unfold executed_with, PlanningAgentImpl_Execute in Hrun2.
  rewrite Ht1 in Hrun1. rewrite Ht2 in Hrun2.
  cbn in Hrun1, Hrun2.
  destruct Hrun1 as (_ & _ & ->). destruct Hrun2 as (-> & _ & _).
  cbn. rewrite Hkind1, Hkind2. split_and!; reflexivity.
Defined.


(** * Further properties of the orchestrator *)

Section OrchestratorMore.
Context {rt : GoRuntime}.
Implicit Types (s : System rt) (w : World rt) (task : Task) (agent : Agent rt).

(** Without a registered agent [ExecuteTask] changes nothing. *)
Lemma ExecuteTask_unregistered task s w :
  agents s !! Type_ task = None →
  ExecuteTask task s w =
    (Failure ("agent type " +:+ Type_ task +:+ " not found"), task, s, w).
Proof. intros Hnone. unfold ExecuteTask. by rewrite Hnone. Qed.

(** What [ExecuteTask] leaves alone. *)
Lemma ExecuteTask_frame task s w :
  let '(out, task', s', w') := ExecuteTask task s w in
  agents s' = agents s
  ∧ ID task' = ID task
  ∧ Type_ task' = Type_ task
  ∧ Description task' = Description task
  ∧ Data task' = Data task
  ∧ CreatedAt task' = CreatedAt task
  ∧ (∀ id, id ≠ ID task → GetTaskResult id s' = GetTaskResult id s)
  ∧ (∃ events, trace s' = trace s ++ events).
Proof.
  destruct (agents s !! Type_ task) as [agent|] eqn:Hreg.
  - rewrite (ExecuteTask_registered _ _ _ _ Hreg). cbn zeta.
    destruct (Execute agent _ _) as [[result|err] w2]; cbn.
    + repeat split; try done.
      * intros id Hid. unfold GetTaskResult. cbn. by apply lookup_insert_ne.
      * rewrite <- !app_assoc. eauto.
    + repeat split; try done. rewrite <- !app_assoc. eauto.
  - rewrite (ExecuteTask_unregistered _ _ _ Hreg).
    repeat split; try done. exists []. by rewrite app_nil_r.
Qed.

(** X1. [ExecuteTask] never changes the registry of agents, nor the task's
    id, kind, description, payload and creation time; it leaves the stored
    results of all other ids as they are and only appends to the trace. *)
Theorem executeTask_preserves task s w :
  let '(out, task', s', w') := ExecuteTask task s w in
  agents s' = agents s
  ∧ ID task' = ID task
  ∧ Type_ task' = Type_ task
  ∧ Description task' = Description task
  ∧ Data task' = Data task
  ∧ CreatedAt task' = CreatedAt task
  ∧ (∀ id, id ≠ ID task → GetTaskResult id s' = GetTaskResult id s)
  ∧ (∃ events, trace s' = trace s ++ events).
Proof. apply ExecuteTask_frame. Qed.

(** X2. For a task that is Pending and has no result when [ExecuteTask]
    receives it: afterwards the task has a result exactly when its status
    is Completed or Failed, it is never left Running, and the result
    [ExecuteTask] returns is the one attached to the task. With no agent
    for its kind the task stays Pending without a result. *)
Theorem executeTask_result_iff_terminal task s w :
  Status task = TaskPending →
  Result task = None →
  let '(out, task', s', w') := ExecuteTask task s w in
  (is_Some (Result task') ↔
     Status task' = TaskCompleted ∨ Status task' = TaskFailed)
  ∧ Status task' ≠ TaskRunning
  ∧ outcome_result out = Result task'
  ∧ (agents s !! Type_ task = None →
       Status task' = TaskPending ∧ Result task' = None).
Proof.
  intros Hpending Hresult.
  destruct (agents s !! Type_ task) as [agent|] eqn:Hreg.
  - rewrite (ExecuteTask_registered _ _ _ _ Hreg). cbn zeta.
    destruct (Execute agent _ _) as [[result|err] w2]; cbn;
      repeat split; eauto; try done.
  - rewrite (ExecuteTask_unregistered _ _ _ Hreg). cbn.
    rewrite Hpending, Hresult.
    repeat split; try done; try (by intros [? ?]); try (by intros [?|?]).
Qed.

(** The shape of a run of [ExecuteTaskChain]. The last part is about
    slices of distinct tasks, which tasks with different ids are. *)
Lemma ExecuteTaskChain_shape (tasks : list Task) s w :
  let '((rs, e), tasks', s', w') := ExecuteTaskChain tasks s w in
  ID <$> tasks' = ID <$> tasks
  ∧ (length rs ≤ length tasks)%nat
  ∧ (∀ i r, rs !! i = Some r → S i < length rs → Success r = true)
  ∧ (e = None → length rs < length tasks →
       ∃ r, last rs = Some r ∧ Success r = false)
  ∧ (is_Some e → Forall (λ r, Success r = true) rs ∧ length rs < length tasks)
  ∧ (NoDup (ID <$> tasks) →
       drop (length rs + (match e with Some _ => 1 | None => 0 end)) tasks' =
         drop (length rs + (match e with Some _ => 1 | None => 0 end)) tasks).
Proof.
  unfold ExecuteTaskChain. revert s w.
  induction tasks as [|t rest IH]; intros s w.
  - cbn. split_and!; try done.
    intros _ Hlt. lia.
  - cbn [ExecuteTaskChain_loop].
    pose proof (ExecuteTask_frame t s w) as Hframe.
    destruct (ExecuteTask t s w) as [[[out t'] s1] w1].
    destruct Hframe as (_ & Hid & _).
    destruct out as [err|r err|r].
    + cbn. rewrite Hid. split_and!; try done; try lia.
      intros _. split; [constructor | lia].
    + cbn. rewrite Hid. split_and!; try done; try lia.
      intros _. split; [constructor | lia].
    + cbn [app]. destruct (Success r) eqn:Hr; cbn [negb].
      * rewrite (ExecuteTaskChain_loop_acc rest [r]).
        specialize (IH s1 w1).
        destruct (ExecuteTaskChain_loop [] rest s1 w1)
          as [[[[rs e] rest'] s2] w2].
        destruct IH as (Hids & Hlen & Hmid & Hlast & Herr & Hdrop).
        cbn. rewrite Hid, Hids. split_and!; try done; try lia.
        4: { intros [_ Hnodup]%NoDup_cons. exact (Hdrop Hnodup). }
        -- intros [|i] r' Hr' Hlt; cbn in *.
           ++ by injection Hr' as <-.
           ++ apply (Hmid i r' Hr'). lia.
        -- intros He Hlt. destruct (Hlast He) as (r' & Hr' & Hf); [lia|].
           exists r'. split; [|done]. by destruct rs.
        -- intros He. destruct (Herr He) as [Hall Hlt].
           split; [by constructor | lia].
      * cbn. rewrite Hid. split_and!; try done; try lia.
        intros _ _. by exists r.
Qed.

(** X3. Whatever the tasks, [ExecuteTaskChain] returns the tasks in their
    order (same ids), at most one result per task, every result but the
    last successful; a result is missing without an error only after a
    result with [Success] false; with an error all returned results are
    successful and one task at least has none. When the ids are pairwise
    different, so that no task object occurs twice in the slice, the tasks
    after the point where the chain stopped are returned as they were
    given. *)
Theorem executeChain_shape (tasks : list Task) s w :
  let '((rs, e), tasks', s', w') := ExecuteTaskChain tasks s w in
  ID <$> tasks' = ID <$> tasks
  ∧ (length rs ≤ length tasks)%nat
  ∧ (∀ i r, rs !! i = Some r → S i < length rs → Success r = true)
  ∧ (e = None → length rs < length tasks →
       ∃ r, last rs = Some r ∧ Success r = false)
  ∧ (is_Some e → Forall (λ r, Success r = true) rs ∧ length rs < length tasks)
  ∧ (NoDup (ID <$> tasks) →
       drop (length rs + (match e with Some _ => 1 | None => 0 end)) tasks' =
         drop (length rs + (match e with Some _ => 1 | None => 0 end)) tasks).
Proof. apply ExecuteTaskChain_shape. Qed.

End OrchestratorMore.

Section ChainAndConsumer.
Context {rt : GoRuntime}.
Implicit Types (s : System rt) (w : World rt) (task : Task) (agent : Agent rt).

Lemma ExecuteTask_Return_stored task s w r task' s' w' :
  ExecuteTask task s w = (Return r, task', s', w') →
  GetTaskResult (ID task) s' = Some r.
Proof.
  destruct (agents s !! Type_ task) as [agent|] eqn:Hreg.
  - rewrite (ExecuteTask_registered _ _ _ _ Hreg). cbn zeta.
    destruct (Execute agent _ _) as [[result|err] w2]; [|discriminate].
    intros [= <- <- <- <-]. unfold GetTaskResult. cbn. apply lookup_insert_eq.
  - rewrite (ExecuteTask_unregistered _ _ _ Hreg). discriminate.
Qed.

(** A chain leaves the registry and the results of other ids alone. *)
Lemma ExecuteTaskChain_frame (tasks : list Task) s w :
  let '(ret, tasks', s', w') := ExecuteTaskChain tasks s w in
  agents s' = agents s
  ∧ (∀ id, id ∉ ID <$> tasks → GetTaskResult id s' = GetTaskResult id s).
Proof.
  unfold ExecuteTaskChain. generalize (@nil TaskResult) as acc. revert s w.
  induction tasks as [|t rest IH]; intros s w acc; cbn; [done|].
  pose proof (ExecuteTask_frame t s w) as Hframe.
  destruct (ExecuteTask t s w) as [[[out t'] s1] w1].
  destruct Hframe as (Hagents & _ & _ & _ & _ & _ & Hother & _).
  assert (Hhere : agents s1 = agents s
            ∧ ∀ id, id ∉ ID t :: (ID <$> rest) →
                GetTaskResult id s1 = GetTaskResult id s).
  { split; [done|]. intros id Hid. apply Hother.
    by apply not_elem_of_cons in Hid as [? _]. }
  destruct out as [err|r err|r]; try exact Hhere.
  destruct (negb (Success r)); [exact Hhere|].
  specialize (IH s1 w1 (acc ++ [r])).
  destruct (ExecuteTaskChain_loop (acc ++ [r]) rest s1 w1)
    as [[[ret rest'] s2] w2].
  destruct IH as [Hagents2 Hother2]. split; [congruence|].
  intros id Hid. apply not_elem_of_cons in Hid as [Hne Hrest].
  rewrite (Hother2 _ Hrest). by apply Hother.
Qed.

(** X4. When the tasks of a chain have pairwise different ids, every
    result the chain returns is afterwards found in the result store under
    the id of its task. *)
Theorem executeChain_results_stored (tasks : list Task) s w :
  NoDup (ID <$> tasks) →
  let '((rs, e), tasks', s', w') := ExecuteTaskChain tasks s w in
  ∀ i r t,
    rs !! i = Some r → tasks !! i = Some t → GetTaskResult (ID t) s' = Some r.
Proof.
  unfold ExecuteTaskChain. revert s w.
  induction tasks as [|t0 rest IH]; intros s w Hnodup.
  - cbn. by intros i r t Hr.
  - apply NoDup_cons in Hnodup as [Hfresh Hnodup].
    cbn [ExecuteTaskChain_loop].
    destruct (ExecuteTask t0 s w) as [[[out t'] s1] w1] eqn:Hexec.
    destruct out as [err|r0 err|r0]; try (by intros i r t Hr).
    apply ExecuteTask_Return_stored in Hexec.
    cbn [app]. destruct (Success r0); cbn [negb].
    + rewrite (ExecuteTaskChain_loop_acc rest [r0]).
      specialize (IH s1 w1 Hnodup).
      pose proof (ExecuteTaskChain_frame rest s1 w1) as Hframe.
      unfold ExecuteTaskChain in Hframe.
      destruct (ExecuteTaskChain_loop [] rest s1 w1)
        as [[[[rs e] rest'] s2] w2].
      destruct Hframe as [_ Hother].
      intros [|i] r t Hr Ht; cbn in *.
      * injection Hr as <-. injection Ht as <-.
        by rewrite (Hother _ Hfresh).
      * by apply (IH i).
    + intros [|i] r t Hr Ht; cbn in *; [|done].
      injection Hr as <-. by injection Ht as <-.
Qed.

(** X5. The consumer of the queue executes every task it receives, in the
    order received, whatever the tasks before did: the tasks come back in
    the same order, every task whose kind has an agent ends Completed or
    Failed, the others come back untouched, and the agents were called for
    exactly the tasks with a registered kind, once each, in order. *)
Theorem processTasks_runs_every_task (received : list Task) s w :
  let '(tasks', s', w') := processTasks received s w in
  Forall2
    (λ t t',
       ID t' = ID t
       ∧ match agents s !! Type_ t with
         | Some _ => Status t' = TaskCompleted ∨ Status t' = TaskFailed
         | None => t' = t
         end) received tasks'
  ∧ ID <$> invoked (trace s') =
      (ID <$> invoked (trace s)) ++
      (ID <$> filter (λ t, is_Some (agents s !! Type_ t)) received)
  ∧ agents s' = agents s.
Proof.
  revert s w. induction received as [|t rest IH]; intros s w.
  - cbn. split_and!; try done. by rewrite app_nil_r.
  - cbn [processTasks].
    pose proof (ExecuteTask_frame t s w) as Hframe.
    assert (Hstep :
      let '(out, t', s1, w1) := ExecuteTask t s w in
      match agents s !! Type_ t with
      | Some _ =>
          (Status t' = TaskCompleted ∨ Status t' = TaskFailed)
          ∧ ID <$> invoked (trace s1) = (ID <$> invoked (trace s)) ++ [ID t]
      | None => t' = t ∧ s1 = s
      end).
    { destruct (agents s !! Type_ t) as [agent|] eqn:Hreg.
      - pose proof (ExecuteTask_invoked t s w agent Hreg) as Hinv.
        rewrite (ExecuteTask_registered _ _ _ _ Hreg) in *. cbn zeta in *.
        destruct (Execute agent _ _) as [[result|err] w2]; cbn in *;
          rewrite Hinv, fmap_app; auto.
      - by rewrite (ExecuteTask_unregistered _ _ _ Hreg). }
    destruct (ExecuteTask t s w) as [[[out t'] s1] w1].
    destruct Hframe as (Hagents & Hid & _).
    assert (Hrest :
      (let '(rest0, s0, w0) :=
         match outcome_err out with
         | Some _ => processTasks rest s1 w1
         | None => processTasks rest s1 w1
         end in (t' :: rest0, s0, w0)) =
      (let '(rest0, s0, w0) := processTasks rest s1 w1 in
       (t' :: rest0, s0, w0))) by (by destruct (outcome_err out)).
    rewrite Hrest. clear Hrest.
    specialize (IH s1 w1).
    destruct (processTasks rest s1 w1) as [[rest' s2] w2].
    destruct IH as (Hall & Hinv & Hagents2).
    rewrite Hagents in Hall, Hinv.
    rewrite filter_cons.
    destruct (agents s !! Type_ t) as [agent|] eqn:Hreg.
    + destruct Hstep as [Hterminal Hinv1].
      rewrite decide_True by eauto.
      split_and!; [| |congruence].
      * constructor; [by rewrite Hreg|done].
      * rewrite Hinv, Hinv1, fmap_cons, <- app_assoc. done.
    + destruct Hstep as [-> ->].
      rewrite decide_False by (by intros [? ?]).
      split_and!; [|done|congruence].
      constructor; [by rewrite Hreg|done].
Qed.

(** X6. When a chain runs to its end without error and every result is
    successful, the consumer of the queue given the same tasks does the
    same: it leaves the same tasks, the same system and the same world. *)
Theorem chain_agrees_with_consumer (tasks : list Task) s w :
  let '((rs, e), tasks', s', w') := ExecuteTaskChain tasks s w in
  e = None →
  Forall (λ r, Success r = true) rs →
  processTasks tasks s w = (tasks', s', w').
Proof.
  unfold ExecuteTaskChain. revert s w.
  induction tasks as [|t rest IH]; intros s w; [done|].
  cbn [ExecuteTaskChain_loop processTasks].
  destruct (ExecuteTask t s w) as [[[out t'] s1] w1].
  destruct out as [err|r err|r]; try (intros; discriminate).
  cbn [app outcome_err]. destruct (Success r) eqn:Hr; cbn [negb].
  - rewrite (ExecuteTaskChain_loop_acc rest [r]).
    specialize (IH s1 w1).
    destruct (ExecuteTaskChain_loop [] rest s1 w1)
      as [[[[rs e] rest'] s2] w2].
    intros He Hall. apply Forall_cons in Hall as [_ Hall].
    by rewrite (IH He Hall).
  - intros _ Hall. apply Forall_cons in Hall as [Hall _]. congruence.
Qed.

Lemma append_inj_r (p a b : string) : p +:+ a = p +:+ b → a = b.
Proof.
  induction p as [|c p IH]; [done|].
  change (String c (p +:+ a) = String c (p +:+ b) → a = b).
  intros [= H]. by apply IH.
Qed.

(** X7. Two task ids made by [generateTaskID] are equal exactly when the
    two clock readings are equal: ids are unique as far as the clock never
    gives the same nanosecond twice, and no further. *)
Theorem generateTaskID_collision (w1 w2 : World rt) :
  (generateTaskID w1).1 = (generateTaskID w2).1 ↔
  w_clock w1 (w_reads w1) = w_clock w2 (w_reads w2).
Proof.
  unfold generateTaskID. cbn. split.
  - intros H. apply append_inj_r in H. by apply (inj pretty) in H.
  - by intros ->.
Qed.

End ChainAndConsumer.

(** * Further properties of the agents *)

Section AgentsMore.
Context {rt : GoRuntime}.
Implicit Types (w : World rt) (task : Task) (llm : LLMClient).

(** X8. The terminal agent, case by case. Without an instruction it fails
    hard and does nothing. When the language model gives no command it
    fails hard after that one call, and the shell is not run. Otherwise it
    runs exactly the generated command, once, in the workspace directory
    of the task or in [.], and returns a result whose [Error] field is
    empty even when [Success] is false: the error text is only in the
    data, under [error], next to [command] and [output]. *)
Theorem terminal_agent_behaviour llm task w :
  let dir := default "." (as_string (Data task !! "workspace_dir")) in
  let '(out, w') :=
    TerminalAgentImpl_Execute rt (NewCommandExecutor rt) llm task w in
  match as_string (Data task !! "instruction") with
  | None => out = Err "instruction not found in task data" ∧ w' = w
  | Some instruction =>
      match GenerateCommand llm (w_io w) instruction with
      | Err e =>
          out = Err ("failed to generate command: " +:+ e)
          ∧ w_os w' = w_os w
          ∧ w_io w' = w_io w ++ [LLMGenerateCommand instruction]
      | Ok command =>
          w_io w' = w_io w ++ [LLMGenerateCommand instruction; ShRun command dir]
          ∧ ∃ r,
              out = Ok r
              ∧ Error r = ""
              ∧ dom (ResultData r) = {[ "command"; "output"; "error" ]}
              ∧ (Success r = false →
                   ∃ text, ResultData r !! "error" = Some (VString text)
                           ∧ text ≠ "")
      end
  end.
Proof.
  intros dir. unfold TerminalAgentImpl_Execute, call_GenerateCommand.
  destruct (as_string (Data task !! "instruction")) as [instruction|]; [|done].
  destruct (GenerateCommand llm (w_io w) instruction) as [command|e]; [|done].
  cbn [ExecuteCommand NewCommandExecutor].
  rewrite ExecuteCommand_unfold. cbn zeta. fold dir.
  split; [cbn; by rewrite <- app_assoc|].
  eexists. split; [reflexivity|]. cbn [Error Success ResultData].
  split; [done|]. split.
  - rewrite !dom_insert_L, dom_singleton_L. set_solver.
  - intros Hfail. apply bool_decide_eq_false in Hfail.
    eexists. split; [reflexivity|]. exact Hfail.
Qed.

(** The planning agent on a task that carries a request. *)
Lemma PlanningAgent_with_request llm task w request :
  as_string (Data task !! "request") = Some request →
  let '(out, w') := PlanningAgentImpl_Execute rt llm task w in
  w_os w' = w_os w
  ∧ w_reads w' = w_reads w
  ∧ w_io w' = w_io w ++
      [ if strings_HasPrefix request "/create-project" then
          LLMPlanProject
            (strings_TrimSpace rt (strings_TrimPrefix request "/create-project"))
        else if strings_HasPrefix request "/explain" then
          LLMChat
            [ {| Role := ChatMessageRoleSystem;
                 Content := "You are an expert programming instructor." |};
              {| Role := ChatMessageRoleUser;
                 Content :=
                   explainPrompt
                     (strings_TrimSpace rt
                        (strings_TrimPrefix request "/explain")) |} ]
        else
          LLMChat
            [ {| Role := ChatMessageRoleSystem; Content := SystemPrompt |};
              {| Role := ChatMessageRoleUser;
                 Content := genericPlanPrompt request |} ] ]
  ∧ (∀ r, out = Ok r → Success r = true ∧ Error r = "").
Proof.
  intros Hrequest. unfold PlanningAgentImpl_Execute. rewrite Hrequest.
  destruct (strings_HasPrefix request "/create-project").
  { unfold handleProjectCreation, call_PlanProject.
    destruct (PlanProject llm _ _) as [planJSON|e]; cbn.
    - destruct (json_Unmarshal rt planJSON); cbn; split_and!; try done.
      by intros r [= <-].
    - split_and!; done. }
  destruct (strings_HasPrefix request "/explain").
  { unfold handleExplainRequest, call_Chat.
    destruct (Chat llm _ _) as [explanation|e]; cbn; split_and!; try done.
    by intros r [= <-]. }
  unfold createGenericPlan, call_Chat.
  destruct (Chat llm _ _) as [plan|e]; cbn; split_and!; try done.
  by intros r [= <-].
Qed.


Lemma contains_middle (a b c : string) : contains (a +:+ b +:+ c) b.
Proof. by exists a, c. Qed.

Lemma append_assoc (a b c : string) : (a +:+ b) +:+ c = a +:+ b +:+ c.
Proof.
  induction a as [|x a IH]; [done|].
  change (String x ((a +:+ b) +:+ c) = String x (a +:+ b +:+ c)).
  by rewrite IH.
Qed.

Lemma append_nil_r (a : string) : a +:+ "" = a.
Proof.
  induction a as [|x a IH]; [done|].
  change (String x (a +:+ "") = String x a). by rewrite IH.
Qed.

(** X10. When the text the language model returns for [/create-project]
    does not parse as a project plan, the planning agent fails hard with
    an error that contains both the parser's error and the raw text. *)
Theorem project_plan_parse_failure_keeps_raw_text llm task w
    (request planJSON err : string) :
  as_string (Data task !! "request") = Some request →
  strings_HasPrefix request "/create-project" = true →
  PlanProject llm (w_io w)
    (strings_TrimSpace rt (strings_TrimPrefix request "/create-project")) =
    Ok planJSON →
  json_Unmarshal rt planJSON = Err err →
  ∃ message,
    (PlanningAgentImpl_Execute rt llm task w).1 = Err message
    ∧ contains message planJSON
    ∧ contains message err.
Proof.
  intros Hrequest Hprefix Hplan Hparse.
  unfold PlanningAgentImpl_Execute. rewrite Hrequest, Hprefix.
  unfold handleProjectCreation, call_PlanProject. rewrite Hplan, Hparse. cbn.
  eexists. split; [reflexivity|]. split.
  - exists ("failed to parse project plan JSON from LLM: " +:+ err
            +:+ ". Raw response: "), "".
    by rewrite append_nil_r, !append_assoc.
  - apply contains_middle.
Qed.

(** X11. The debug agent, for a task that carries an error output: the
    language model is asked to analyse the error with an empty file
    content, and, if that succeeds, to produce the fix; the result names
    an empty file. A failed analysis is a hard failure after that single
    call. The machine is never touched. *)
Theorem debug_agent_behaviour llm task w (errorOutput : string) :
  as_string (Data task !! "error_output") = Some errorOutput →
  let '(out, w') := DebugAgentImpl_Execute rt llm task w in
  let asked := LLMAnalyzeError errorOutput "" in
  w_os w' = w_os w
  ∧ shell_runs (w_io w') = shell_runs (w_io w)
  ∧ match AnalyzeError llm (w_io w) errorOutput "" with
    | Err e =>
        out = Err ("failed to analyze error: " +:+ e)
        ∧ w_io w' = w_io w ++ [asked]
    | Ok analysis =>
        ∃ messages,
          w_io w' = w_io w ++ [asked; LLMChat messages]
          ∧ match Chat llm (w_io w ++ [asked]) messages with
            | Err e => out = Err ("failed to generate fix: " +:+ e)
            | Ok fix_ =>
                out = Ok {| Success := true;
                            ResultData :=
                              {[ "analysis" := VString analysis;
                                 "fix" := VString fix_;
                                 "file" := VString "" ]};
                            Error := "" |}
            end
    end.
Proof.
  intros Herror. unfold DebugAgentImpl_Execute. rewrite Herror.
  cbn [identifyErrorFile]. unfold call_AnalyzeError.
  destruct (AnalyzeError llm (w_io w) errorOutput "") as [analysis|e].
  - unfold generateFix, call_Chat. cbn [w_io log_io].
    destruct (Chat llm _ _) as [fix_|e] eqn:Hchat; cbn in Hchat |- *.
    + split_and!; [done| |].
      * unfold shell_runs. rewrite !omap_app. cbn. by rewrite !app_nil_r.
      * eexists. split; [by rewrite <- app_assoc|]. by rewrite Hchat.
    + split_and!; [done| |].
      * unfold shell_runs. rewrite !omap_app. cbn. by rewrite !app_nil_r.
      * eexists. split; [by rewrite <- app_assoc|]. by rewrite Hchat.
  - cbn. split_and!; try done.
    unfold shell_runs. rewrite omap_app. cbn. by rewrite app_nil_r.
Qed.

(** X12. The debug agent looks at the error output only: two tasks with
    the same error output get the same answer, whatever their workspace
    directory, id or remaining payload. *)
Theorem debug_agent_ignores_workspace llm (t1 t2 : Task) w :
  as_string (Data t1 !! "error_output") = as_string (Data t2 !! "error_output") →
  DebugAgentImpl_Execute rt llm t1 w = DebugAgentImpl_Execute rt llm t2 w.
Proof. intros H. unfold DebugAgentImpl_Execute. by rewrite H. Qed.

End AgentsMore.

(** * Further properties of the file agent and the file manager *)

Section FilesMore.
Context {rt : GoRuntime}.
Implicit Types (w : World rt) (task : Task) (fm : FileManager rt).

Ltac file_result :=
  first
    [ done
    | by intros ? [= <-]
    | by intros _ ? [= <-]
    | split; [by eexists | done]
    | split; [done | by intros [? ?]] ].



(** X14. With any file manager, a well-formed file task (one of the four
    operations, with path and workspace directory, and content for an
    update) never fails hard. The file manager is called once, for the
    operation, on the joined path, and the world it leaves is returned.
    When the file manager returns an error the result has [Success] false,
    that error as [Error] and no data; when it returns none the result has
    [Success] true, an empty [Error] and the joined path under [path], and
    for a read what was read under [content]. *)
Theorem file_agent_file_errors_are_soft fm task w
    (operation path workspaceDir : string) :
  as_string (Data task !! "operation") = Some operation →
  operation ∈ ["create"; "update"; "delete"; "read"] →
  as_string (Data task !! "path") = Some path →
  as_string (Data task !! "workspace_dir") = Some workspaceDir →
  (operation = "update" → is_Some (as_string (Data task !! "content"))) →
  let fullPath := filepath_Join rt workspaceDir path in
  let content := default "" (as_string (Data task !! "content")) in
  let read := ReadFile rt fm fullPath w in
  let answer : option error * World rt :=
    if bool_decide (operation = "create") then
      CreateFile rt fm fullPath content w
    else if bool_decide (operation = "update") then
      UpdateFile rt fm fullPath content w
    else if bool_decide (operation = "delete") then
      DeleteFile rt fm fullPath w
    else (match read.1 with Err e => Some e | Ok _ => None end, read.2) in
  ∃ r w',
    FileAgentImpl_Execute rt fm task w = (Ok r, w')
    ∧ w' = answer.2
    ∧ (Success r = false ↔ is_Some answer.1)
    ∧ (∀ e, answer.1 = Some e → r = soft_failure e)
    ∧ (operation = "read" →
         ∀ text, read.1 = Ok text →
                 ResultData r !! "content" = Some (VString text))
    ∧ (Success r = true →
         Error r = ""
         ∧ ResultData r !! "path" =
             Some (VString (filepath_Join rt workspaceDir path)))
    ∧ (Success r = false → ResultData r = ∅).
Proof.
  intros Hop Hin Hpath Hdir Hcontent fullPath content read answer.
  subst answer read content fullPath.
  unfold FileAgentImpl_Execute. rewrite Hop.
  repeat case_bool_decide; subst.
  - unfold handleCreateFile. rewrite Hpath, Hdir.
    destruct (CreateFile rt fm _ _ _) as [[e|] w1]; eexists _, _;
      (split; [reflexivity|]); cbn; split_and!; file_result.
  - unfold handleUpdateFile. rewrite Hpath, Hdir.
    destruct (Hcontent eq_refl) as [content ->].
    destruct (UpdateFile rt fm _ _ _) as [[e|] w1]; eexists _, _;
      (split; [reflexivity|]); cbn; split_and!; file_result.
  - unfold handleDeleteFile. rewrite Hpath, Hdir.
    destruct (DeleteFile rt fm _ _) as [[e|] w1]; eexists _, _;
      (split; [reflexivity|]); cbn; split_and!; file_result.
  - unfold handleReadFile. rewrite Hpath, Hdir.
    destruct (ReadFile rt fm _ _) as [[text|e] w1]; eexists _, _;
      (split; [reflexivity|]); cbn; split_and!; file_result.
  - rewrite !elem_of_cons, elem_of_nil in Hin. tauto.
Qed.

(** X15. A create task without a string under [content] is executed as
    the same task with the empty string as content: the file manager is
    asked to create an empty file. *)
Theorem create_without_content_is_empty_file fm task w :
  as_string (Data task !! "operation") = Some "create" →
  as_string (Data task !! "content") = None →
  FileAgentImpl_Execute rt fm task w =
    FileAgentImpl_Execute rt fm (set_payload "content" (VString "") task) w.
Proof.
  intros Hop Hcontent. unfold FileAgentImpl_Execute.
  cbn [Data set_payload]. rewrite lookup_insert_ne by done. rewrite Hop.
  cbn. unfold handleCreateFile. cbn [Data set_payload].
  rewrite !lookup_insert_ne by done. rewrite lookup_insert_eq, Hcontent.
  reflexivity.
Qed.

(** X16. [FileExists] is false only when [os.Stat] reports that the path
    does not exist. When [os.Stat] fails for another reason the path
    counts as existing, and [UpdateFile] goes on to write the file and
    returns what [os.WriteFile] returns. *)
Theorem stat_failure_counts_as_existing (path content : string) w
    (err : OsError) :
  os_Stat rt (w_os w) path = Some err →
  oserr_not_exist err = false →
  FileManagerImpl_FileExists rt path w = true
  ∧ FileManagerImpl_UpdateFile rt path content w =
      ((os_WriteFile rt (w_os w) path content).1,
       set_os (os_WriteFile rt (w_os w) path content).2 w).
Proof.
  intros Hstat Hkind.
  assert (Hexists : FileManagerImpl_FileExists rt path w = true).
  { unfold FileManagerImpl_FileExists. rewrite Hstat. cbn. by rewrite Hkind. }
  split; [done|]. unfold FileManagerImpl_UpdateFile. rewrite Hexists. cbn.
  by destruct (os_WriteFile rt (w_os w) path content).
Qed.

(** X17. [CreateFile] succeeds exactly when making the directories,
    creating the file and writing the content all succeed. Every error it
    returns names the path. It never undoes a step, at any stage: the
    machine is left as the last step attempted left it, whether that step
    was the failed making of the directories, the failed creation of the
    file, or the write (failed or not, after the file was created). The
    clock and the history of calls stay as they were. *)
Theorem createFile_stages (path content : string) w :
  let mk := os_MkdirAll rt (w_os w) (filepath_Dir rt path) in
  let cr := os_Create rt mk.2 path in
  let wr := file_WriteString rt cr.2 path content in
  let '(err, w') := FileManagerImpl_CreateFile rt path content w in
  (err = None ↔ mk.1 = None ∧ cr.1 = None ∧ wr.1 = None)
  ∧ (∀ e, err = Some e → contains e path)
  ∧ (mk.1 = None → cr.1 = None → w_os w' = wr.2)
  ∧ (is_Some mk.1 → w_os w' = mk.2)
  ∧ (mk.1 = None → is_Some cr.1 → w_os w' = cr.2)
  ∧ w_reads w' = w_reads w
  ∧ w_io w' = w_io w.
Proof.
  intros mk cr wr. unfold FileManagerImpl_CreateFile.
  subst wr cr mk.
  destruct (os_MkdirAll rt (w_os w) (filepath_Dir rt path)) as [[e1|] os1];
    cbn [fst snd];
    [|destruct (os_Create rt os1 path) as [[e2|] os2]; cbn [fst snd];
      [|destruct (file_WriteString rt os2 path content) as [[e3|] os3];
        cbn [fst snd]]].
  all: split_and!;
    [ split; [done | by intros (? & ? & ?)]
    | try done; intros e [= <-]; apply contains_middle
    | done
    | try done; by intros [? ?]
    | try done; by intros _ [? ?]
    | done
    | done ].
Qed.

End FilesMore.

(** * Further properties of the command executor and of [ListFiles] *)

Section ExecutorMore.
Context {rt : GoRuntime}.
Implicit Types (w : World rt).

(** X18. Running a list of commands followed by a second list: when no
    command of the first list failed, the result is the records of the
    first list followed by what the second list gives in the world the
    first left; when one failed, the second list is ignored altogether. *)
Theorem runSequence_app (cs1 cs2 : list string) (dir : string) w :
  let '((rs1, e1), w1) := CommandExecutorImpl_ExecuteCommands rt cs1 dir w in
  CommandExecutorImpl_ExecuteCommands rt (cs1 ++ cs2) dir w =
    if forallb (λ c, negb (bool_decide (CmdStatus c = "failed"))) rs1 then
      let '((rs2, e2), w2) :=
        CommandExecutorImpl_ExecuteCommands rt cs2 dir w1 in
      ((rs1 ++ rs2, e2), w2)
    else ((rs1, e1), w1).
Proof.
  unfold CommandExecutorImpl_ExecuteCommands. revert w.
  induction cs1 as [|c cs1 IH]; intros w.
  - cbn. by destruct (ExecuteCommands_loop rt [] cs2 dir w) as [[rs2 e2] w2].
  - cbn [app ExecuteCommands_loop]. rewrite ExecuteCommand_unfold. cbn zeta.
    set (w1 := set_os _ _).
    set (r := match pr_err _ with Some _ => _ | None => _ end).
    clearbody r w1. cbn [app]. case_bool_decide as Hfailed.
    + cbn. by rewrite bool_decide_eq_true_2.
    + rewrite (ExecuteCommands_loop_acc cs1 [r]),
        (ExecuteCommands_loop_acc (cs1 ++ cs2) [r]).
      specialize (IH w1).
      destruct (ExecuteCommands_loop rt [] cs1 dir w1) as [[rs1 e1] w2].
      rewrite IH. cbn [app forallb]. rewrite bool_decide_eq_false_2 by done.
      cbn [negb andb].
      destruct (forallb _ rs1); [|done].
      by destruct (ExecuteCommands_loop rt [] cs2 dir w2) as [[rs2 e2] w3].
Qed.

Context (filepath_Walk : OsState rt -> string -> list WalkVisit).
Context (filepath_Rel : string -> string -> Res string).

Lemma ListFiles_walk_acc (dir : string) (visits : list WalkVisit)
    (acc : list string) :
  ListFiles_walk filepath_Rel dir acc visits =
    let '(files, err) := ListFiles_walk filepath_Rel dir [] visits in
    (acc ++ files, err).
Proof.
  revert acc. induction visits as [|v rest IH]; intros acc; cbn.
  - by rewrite app_nil_r.
  - destruct (VisitErr v); [by rewrite app_nil_r|].
    destruct (VisitIsDir v); cbn; [apply IH|].
    destruct (filepath_Rel dir (VisitPath v)) as [relPath|e];
      [|by rewrite app_nil_r].
    rewrite (IH (acc ++ [relPath])), (IH [relPath]).
    destruct (ListFiles_walk filepath_Rel dir [] rest) as [files err].
    by rewrite <- app_assoc.
Qed.

(** X19. [ListFiles] goes through the entries [filepath.Walk] visits, in
    order, up to the first one that is reported with an error or whose
    relative path cannot be computed. It returns the relative paths of the
    entries before that point that are not directories, in order; with an
    error these files are still returned, next to the error, and without
    an error every entry was visited. *)
Theorem listFiles_lists_files_only (dir : string) w :
  let visits := filepath_Walk (w_os w) dir in
  let '(files, err) :=
    FileManagerImpl_ListFiles filepath_Walk filepath_Rel dir w in
  ∃ n,
    (n ≤ length visits)%nat
    ∧ Forall (λ v, VisitErr v = None) (take n visits)
    ∧ Forall2 (λ v f, filepath_Rel dir (VisitPath v) = Ok f)
        (filter (λ v, VisitIsDir v = false) (take n visits)) files
    ∧ match err with
      | None => n = length visits
      | Some e =>
          ∃ v, visits !! n = Some v
               ∧ (VisitErr v = Some e
                  ∨ (VisitErr v = None ∧ VisitIsDir v = false
                     ∧ filepath_Rel dir (VisitPath v) = Err e))
      end.
Proof.
  intros visits. unfold FileManagerImpl_ListFiles. fold visits.
  clearbody visits. induction visits as [|v rest IH]; cbn.
  - exists 0. split_and!; done.
  - destruct (VisitErr v) as [e|] eqn:Herr.
    { exists 0. split_and!; cbn; try done; try lia; try constructor.
      exists v. split; [done|]. by left. }
    destruct (VisitIsDir v) eqn:Hdir; cbn.
    + destruct (ListFiles_walk filepath_Rel dir [] rest) as [files err].
      destruct IH as (n & Hn & Hok & Hfiles & Hend).
      exists (S n). cbn. split_and!; try done; try lia.
      * by constructor.
      * rewrite decide_False by congruence. done.
      * destruct err; [done|]. by f_equal.
    + destruct (filepath_Rel dir (VisitPath v)) as [relPath|e] eqn:Hrel.
      * rewrite (ListFiles_walk_acc dir rest [relPath]).
        destruct (ListFiles_walk filepath_Rel dir [] rest) as [files err].
        destruct IH as (n & Hn & Hok & Hfiles & Hend).
        exists (S n). cbn. split_and!; try done; try lia.
        -- by constructor.
        -- rewrite decide_True by done. by constructor.
        -- destruct err; [done|]. by f_equal.
      * exists 0. split_and!; cbn; try done; try lia; try constructor.
        exists v. split; [done|]. right. done.
Qed.

End ExecutorMore.

(** * Further properties of the entry points *)

Section EntryPointsMore.
Context {rt : GoRuntime}.
Implicit Types (s : System rt) (w : World rt) (task : Task) (llm : LLMClient).

Ltac execute_registered H :=
  repeat match goal with
         | |- context [ExecuteTask ?t ?s0 ?w0] =>
             rewrite (ExecuteTask_registered t s0 w0 _ H)
         end.

(** X20. On a system with the agents of [NewSystem], a request with a
    terminal phrase sent through [ProcessUserRequest] gets the answer
    [HandleCommand] gives for [/run] with the whole request as its
    argument: the same outcome, the same world and the same stored
    results. *)
Theorem route_terminal_equals_run llm s w (request dir : string) :
  standard_agents llm s →
  has_terminal_phrase rt request →
  let a := ProcessUserRequest request dir s w in
  let b := HandleCommand "/run" request dir s w in
  a.1.1 = b.1.1 ∧ a.2 = b.2 ∧ results a.1.2 = results b.1.2.
Proof.
  intros Hstd Hphrase a b. subst a b.
  destruct (standard_agents_lookup llm s Hstd) as (_ & Hterminal & _).
  apply isTerminalIntent_spec in Hphrase.
  unfold ProcessUserRequest. rewrite Hphrase.
  unfold HandleCommand. repeat (case_bool_decide; try done).
  unfold handleRunCommand, generateTaskID. cbn [time_Now fst snd].
  execute_registered Hterminal. cbn zeta.
  cbn [Execute NewTerminalAgent running_task].
  unfold TerminalAgentImpl_Execute. cbn [Data set_UpdatedAt set_Status new_task].
  destruct (as_string _) as [instruction|]; [|done].
  destruct (call_GenerateCommand rt llm instruction _) as [[command|e] w2];
    [|done].
  by destruct (ExecuteCommand rt (NewCommandExecutor rt) command _ w2)
    as [[c|e] w3].
Qed.

(** X21. On a system with the agents of [NewSystem], a request without a
    terminal phrase never runs the shell nor changes the machine, and its
    outcome is one of two: a successful result, which is then stored under
    the id of the task built for it, or an error that starts with
    [failed to process request: ], with no result returned and the result
    store unchanged. A result with [Success] false never comes back. *)
Theorem route_planning_outcomes llm s w (request dir : string) :
  standard_agents llm s →
  ¬ has_terminal_phrase rt request →
  let '(out, s', w') := ProcessUserRequest request dir s w in
  w_os w' = w_os w
  ∧ shell_runs (w_io w') = shell_runs (w_io w)
  ∧ match out with
    | Return r =>
        Success r = true ∧ GetTaskResult (generateTaskID w).1 s' = Some r
    | Failure err =>
        strings_HasPrefix err "failed to process request: " = true
        ∧ results s' = results s
    | FailureWith _ _ => False
    end.
Proof.
  intros Hstd Hphrase.
  destruct (standard_agents_lookup llm s Hstd) as (Hplanning & _).
  rewrite <- isTerminalIntent_spec in Hphrase.
  apply not_true_is_false in Hphrase.
  unfold ProcessUserRequest. rewrite Hphrase.
  unfold generateTaskID. cbn [time_Now fst snd].
  execute_registered Hplanning. cbn zeta.
  cbn [Execute NewPlanningAgent].
  match goal with
  | |- context [PlanningAgentImpl_Execute rt llm ?t ?w0] =>
      pose proof (PlanningAgent_with_request llm t w0 request eq_refl) as H;
      destruct (PlanningAgentImpl_Execute rt llm t w0) as [[r|e] w2]
  end.
  - destruct H as (Hos & _ & Hio & Hok). destruct (Hok r eq_refl) as [Hr _].
    cbn in Hos, Hio |- *. split_and!; try done.
    + rewrite Hio. unfold shell_runs. rewrite omap_app.
      repeat case_match; cbn; by rewrite app_nil_r.
    + unfold GetTaskResult. cbn. apply lookup_insert_eq.
  - destruct H as (Hos & _ & Hio & _).
    cbn in Hos, Hio |- *. split_and!; try done.
    + rewrite Hio. unfold shell_runs. rewrite omap_app.
      repeat case_match; cbn; by rewrite app_nil_r.
    + apply strings_HasPrefix_spec. by eexists.
Qed.

(** [HandleCommand] for the two planning verbs, on the agents of
    [NewSystem]. *)
Lemma HandleCommand_planning_verbs llm s w (command args dir : string) :
  standard_agents llm s →
  command = "/explain" ∨ command = "/create-project" →
  let '(out, s', w') := HandleCommand command args dir s w in
  out = FailureWith (soft_failure "request data not found in task")
          "request data not found in task"
  ∧ w_io w' = w_io w
  ∧ w_os w' = w_os w
  ∧ results s' = results s.
Proof.
  intros Hstd Hcommand.
  destruct (standard_agents_lookup llm s Hstd) as (Hplanning & _).
  destruct Hcommand as [-> | ->];
    unfold HandleCommand; repeat (case_bool_decide; try done);
    unfold handleExplainCommand, handleCreateProjectCommand, generateTaskID;
    cbn [time_Now fst snd];
    execute_registered Hplanning; cbn zeta;
    cbn [Execute NewPlanningAgent]; unfold PlanningAgentImpl_Execute;
    match goal with
    | |- context [as_string (Data ?t !! "request")] =>
        change (as_string (Data t !! "request")) with (@None string)
    end; cbn iota beta; done.
Qed.

(** X22. The command endpoint answers with one JSON body and the content
    type [application/json]. A body that does not decode gives status 400
    and touches nothing. Otherwise the status is 500 exactly when
    [HandleCommand] returned an error, the body carrying that error and no
    data (a result returned along with the error is dropped); and it is
    200 when [HandleCommand] returned a result without error, the body
    mirroring the result, also when its [Success] is false. *)
Theorem handleCommand_response (body : Res Server.Request) s w :
  let '(rw, s', w') := Server.handleCommand body Server.fresh s w in
  Server.Header rw !! "Content-Type" = Some "application/json"
  ∧ match body with
    | Err _ =>
        Server.Status rw = Some 400
        ∧ Server.Written rw =
            [Server.BodyResponse
               {| Server.RespSuccess := false; Server.RespData := ∅;
                  Server.RespError := "Invalid request body" |}]
        ∧ s' = s ∧ w' = w
    | Ok req =>
        let '(out, s2, w2) :=
          HandleCommand (Server.ReqCommand req) (Server.ReqArgs req)
            (Server.ReqWorkspaceDir req) s w in
        s' = s2 ∧ w' = w2
        ∧ match outcome_err out with
          | Some err =>
              Server.Status rw = Some 500
              ∧ Server.Written rw =
                  [Server.BodyResponse
                     {| Server.RespSuccess := false; Server.RespData := ∅;
                        Server.RespError := err |}]
          | None =>
              Server.Status rw = Some 200
              ∧ ∃ r, out = Return r
                     ∧ Server.Written rw =
                         [Server.BodyResponse
                            {| Server.RespSuccess := Success r;
                               Server.RespData := ResultData r;
                               Server.RespError := Error r |}]
          end
    end.
Proof.
  unfold Server.handleCommand. destruct body as [req|e]; [|by cbn].
  destruct (HandleCommand _ _ _ s w) as [[out s2] w2].
  destruct out as [err|r err|r]; cbn; split_and!; try done.
  by exists r.
Qed.

(** X23. Through the command endpoint, on a system with the agents of
    [NewSystem]: the verbs [/explain] and [/create-project] are always
    answered with status 500 and the error that the request data is not
    in the task, without a call to the language model; any verb other
    than the four known ones is answered with status 500 and the error
    naming the unknown command, and nothing is executed or changed. *)
Theorem command_endpoint_errors llm (req : Server.Request) s w :
  standard_agents llm s →
  let '(rw, s', w') := Server.handleCommand (Ok req) Server.fresh s w in
  let command := Server.ReqCommand req in
  (command = "/explain" ∨ command = "/create-project" →
     Server.Status rw = Some 500
     ∧ Server.Written rw =
         [Server.BodyResponse
            {| Server.RespSuccess := false; Server.RespData := ∅;
               Server.RespError := "request data not found in task" |}]
     ∧ w_io w' = w_io w
     ∧ results s' = results s)
  ∧ (command ∉ ["/fix"; "/run"; "/explain"; "/create-project"] →
     Server.Status rw = Some 500
     ∧ Server.Written rw =
         [Server.BodyResponse
            {| Server.RespSuccess := false; Server.RespData := ∅;
               Server.RespError := "unknown command: " +:+ command |}]
     ∧ s' = s ∧ w' = w).
Proof.
  intros Hstd. unfold Server.handleCommand.
  pose proof (HandleCommand_planning_verbs llm s w (Server.ReqCommand req)
                (Server.ReqArgs req) (Server.ReqWorkspaceDir req) Hstd) as Hplan.
  assert (Hunknown :
    Server.ReqCommand req ∉ ["/fix"; "/run"; "/explain"; "/create-project"] →
    HandleCommand (Server.ReqCommand req) (Server.ReqArgs req)
      (Server.ReqWorkspaceDir req) s w =
      (Failure ("unknown command: " +:+ Server.ReqCommand req), s, w)).
  { rewrite !not_elem_of_cons. intros (? & ? & ? & ? & _).
    unfold HandleCommand. by repeat (case_bool_decide; try done). }
  destruct (HandleCommand _ _ _ s w) as [[out s2] w2].
  destruct out as [err|r err|r]; cbn; split; intros Hverb.
  all: first
    [ destruct (Hplan Hverb) as (Hout & Hio & _ & Hres); by simplify_eq
    | specialize (Hunknown Hverb); by simplify_eq ].
Qed.

(** X24. The CORS middleware on a writer whose header is not written yet:
    it sets the three CORS headers; for the method OPTIONS it then answers
    with status 200, writes no body and does not call the handler it
    wraps; for any other method it hands the writer with the three headers
    set, and nothing written, to that handler. *)
Theorem corsMiddleware_behaviour {St : Type}
    (next : string → Server.ResponseWriter → St → Server.ResponseWriter * St)
    (method : string) (rw : Server.ResponseWriter) (st : St) :
  Server.Status rw = None →
  ∃ rw3,
    Server.Header rw3 =
      <[ "Access-Control-Allow-Headers" := "Content-Type, Authorization" ]>
      (<[ "Access-Control-Allow-Methods" := "GET, POST, PUT, DELETE, OPTIONS" ]>
      (<[ "Access-Control-Allow-Origin" := "*" ]> (Server.Header rw)))
    ∧ Server.Status rw3 = None
    ∧ Server.Written rw3 = Server.Written rw
    ∧ Server.corsMiddleware next method rw st =
        if bool_decide (method = "OPTIONS") then
          ({| Server.Header := Server.Header rw3; Server.Status := Some 200;
              Server.Written := Server.Written rw |}, st)
        else next method rw3 st.
Proof.
  intros Hfresh.
  exists {| Server.Header :=
             <[ "Access-Control-Allow-Headers" := "Content-Type, Authorization" ]>
             (<[ "Access-Control-Allow-Methods" :=
                   "GET, POST, PUT, DELETE, OPTIONS" ]>
             (<[ "Access-Control-Allow-Origin" := "*" ]> (Server.Header rw)));
           Server.Status := None;
           Server.Written := Server.Written rw |}.
  split_and!; try reflexivity.
  unfold Server.corsMiddleware, Server.Header_Set, Server.WriteHeader.
  rewrite Hfresh. cbn. by case_bool_decide.
Qed.

(** X25. The command endpoint on a system whose agents use the Groq
    client, for the verb [/run]: the API is asked once, with the client's
    current model and the command prompt for [args]. If the API call fails
    the answer is status 500 with the error of the API behind the prefixes
    of the terminal agent and of the client; if the API returns no choice
    the answer is status 500 saying so; in both cases the shell is not
    run. Otherwise the first choice, and only it, is run by the shell in
    the workspace directory of the request, and the status is 200. *)
Theorem run_endpoint_with_groq (api : Llm.API) (g : Llm.GroqClient)
    (req : Server.Request) s w :
  standard_agents (Llm.asLLMClient api g) s →
  Server.ReqCommand req = "/run" →
  let '(rw, s', w') := Server.handleCommand (Ok req) Server.fresh s w in
  let asked := LLMGenerateCommand (Server.ReqArgs req) in
  match Llm.CreateChatCompletion api (w_io w) (Llm.client g)
          {| Llm.Model := Llm.model g;
             Llm.Messages :=
               Llm.conversation
                 "You are a command-line expert. Convert natural language to exact shell commands."
                 (Llm.generateCommandPrompt (Server.ReqArgs req)) |} with
  | Err e =>
      Server.Status rw = Some 500
      ∧ Server.Written rw =
          [Server.BodyResponse
             {| Server.RespSuccess := false; Server.RespData := ∅;
                Server.RespError :=
                  "failed to generate command: failed to create chat completion: "
                  +:+ e |}]
      ∧ w_io w' = w_io w ++ [asked]
  | Ok [] =>
      Server.Status rw = Some 500
      ∧ Server.Written rw =
          [Server.BodyResponse
             {| Server.RespSuccess := false; Server.RespData := ∅;
                Server.RespError :=
                  "failed to generate command: no response from model" |}]
      ∧ w_io w' = w_io w ++ [asked]
  | Ok (command :: _) =>
      Server.Status rw = Some 200
      ∧ w_io w' =
          w_io w ++ [asked; ShRun command (Server.ReqWorkspaceDir req)]
  end.
Proof.
  intros Hstd Hverb.
  destruct (standard_agents_lookup _ s Hstd) as (_ & Hterminal & _).
  unfold Server.handleCommand. rewrite Hverb.
  unfold HandleCommand. repeat (case_bool_decide; try done).
  unfold handleRunCommand, generateTaskID. cbn [time_Now fst snd].
  execute_registered Hterminal. cbn zeta.
  cbn [Execute NewTerminalAgent running_task].
  unfold TerminalAgentImpl_Execute.
  cbn [Data set_UpdatedAt set_Status new_task].
  match goal with
  | |- context [as_string (?m !! "instruction")] =>
      change (as_string (m !! "instruction"))
        with (Some (Server.ReqArgs req));
      change (as_string (m !! "workspace_dir"))
        with (Some (Server.ReqWorkspaceDir req))
  end.
  unfold call_GenerateCommand.
  cbn [GenerateCommand Llm.asLLMClient w_io].
  unfold Llm.GenerateCommand, Llm.Chat.
  destruct (Llm.CreateChatCompletion api _ _ _) as [[|command choices]|e].
  - by cbn.
  - cbn [ExecuteCommand NewCommandExecutor default].
    rewrite ExecuteCommand_unfold. cbn. split; [done|].
    by rewrite <- app_assoc.
  - cbn. split_and!; done.
Qed.

End EntryPointsMore.

(** * Further properties of the Groq client and of the HTTP answers *)

Section ClientAndAnswers.
Context {rt : GoRuntime}.
Implicit Types (s : System rt) (w : World rt).

(** Setting the model any number of times keeps the key and leaves the
    model last set. *)
Lemma SetModel_foldl (models : list string) (g : Llm.GroqClient) :
  Llm.client (foldl (λ g model, Llm.SetModel model g) g models) = Llm.client g
  ∧ Llm.model (foldl (λ g model, Llm.SetModel model g) g models) =
      default (Llm.model g) (last models).
Proof.
  revert g. induction models as [|m models IH]; intros g; [done|].
  cbn [foldl]. destruct (IH (Llm.SetModel m g)) as [-> ->].
  split; [done|]. destruct models as [|m' models]; [done|].
  change (last (m :: m' :: models)) with (last (m' :: models)).
  destruct (last (m' :: models)) eqn:Hlast; [done|].
  by apply last_None in Hlast.
Qed.

(** X26. [NewGroqClient] refuses the empty API key and nothing else. A
    client it returns has the model it was given, and after any sequence
    of [SetModel] every request still carries the key of the client and
    the model set last; [Chat] returns the first choice of the response,
    fails with [no response from model] when there is none, and puts its
    own prefix before an error of the API. *)
Theorem groq_client_key_and_model (api : Llm.API) (apiKey model0 : string) :
  match Llm.NewGroqClient apiKey model0 with
  | Err e => apiKey = "" ∧ e = "API key is required"
  | Ok g =>
      apiKey ≠ ""
      ∧ Llm.GetModel g = model0
      ∧ ∀ (models : list string) history messages,
          let g' := foldl (λ g model, Llm.SetModel model g) g models in
          Llm.GetModel g' = default model0 (last models)
          ∧ Llm.Chat api g' history messages =
              match Llm.CreateChatCompletion api history apiKey
                      {| Llm.Model := default model0 (last models);
                         Llm.Messages := messages |} with
              | Err err => Err ("failed to create chat completion: " +:+ err)
              | Ok [] => Err "no response from model"
              | Ok (content :: _) => Ok content
              end
  end.
Proof.
  unfold Llm.NewGroqClient. case_bool_decide as Hkey; [done|].
  split; [done|]. split; [done|]. intros models history messages.
  destruct (SetModel_foldl models {| Llm.client := apiKey; Llm.model := model0 |})
    as [Hclient Hmodel].
  cbn [Llm.client Llm.model] in Hclient, Hmodel.
  unfold Llm.GetModel, Llm.Chat. rewrite Hclient, Hmodel. done.
Qed.

(** What the three ways of answering do to a writer whose header is not
    written yet. *)
Lemma sendError_fresh (rw : Server.ResponseWriter) (message : string)
    (status : nat) :
  Server.Status rw = None →
  Server.sendError rw message status =
    {| Server.Header := <[ "Content-Type" := "application/json" ]> (Server.Header rw);
       Server.Status := Some status;
       Server.Written :=
         Server.Written rw ++
         [Server.BodyResponse
            {| Server.RespSuccess := false; Server.RespData := ∅;
               Server.RespError := message |}] |}.
Proof.
  intros H. unfold Server.sendError, Server.Encode, Server.WriteHeader,
    Server.Header_Set. rewrite H. reflexivity.
Qed.

Lemma sendJSON_fresh (rw : Server.ResponseWriter) (data : Server.Body) :
  Server.Status rw = None →
  Server.sendJSON rw data =
    {| Server.Header := <[ "Content-Type" := "application/json" ]> (Server.Header rw);
       Server.Status := Some 200;
       Server.Written := Server.Written rw ++ [data] |}.
Proof.
  intros H. unfold Server.sendJSON, Server.Encode, Server.Header_Set.
  rewrite H. reflexivity.
Qed.

(** X27. Behind the CORS middleware, for any method other than OPTIONS,
    the health, chat and command handlers each answer a request with the
    three CORS headers and the content type [application/json], a status,
    and exactly one body: no handler overwrites a CORS header, answers
    twice or leaves the status unset. *)
Theorem cors_headers_reach_every_answer (body : Res Server.Request)
    (method : string) s w :
  method ≠ "OPTIONS" →
  let answers :=
    [ (Server.corsMiddleware (λ _ rw st, (Server.handleHealth rw, st))
         method Server.fresh tt).1;
      (Server.corsMiddleware (λ _ rw st, (Server.handleChat body rw, st))
         method Server.fresh tt).1;
      (Server.corsMiddleware
         (λ _ rw st, let '(rw', s', w') := Server.handleCommand body rw st.1 st.2 in
                     (rw', (s', w')))
         method Server.fresh (s, w)).1 ] in
  Forall
    (λ rw,
       Server.Header rw =
         <[ "Content-Type" := "application/json" ]>
         (<[ "Access-Control-Allow-Headers" := "Content-Type, Authorization" ]>
         (<[ "Access-Control-Allow-Methods" := "GET, POST, PUT, DELETE, OPTIONS" ]>
         (<[ "Access-Control-Allow-Origin" := "*" ]> ∅)))
       ∧ is_Some (Server.Status rw)
       ∧ length (Server.Written rw) = 1%nat) answers.
Proof.
  intros Hmethod answers. subst answers. unfold Server.corsMiddleware.
  rewrite !bool_decide_eq_false_2 by done.
  set (rw3 := Server.Header_Set _ _ (Server.Header_Set _ _ (Server.Header_Set _ _ _))).
  assert (Hfresh : Server.Status rw3 = None) by reflexivity.
  repeat apply Forall_cons_2; [| | |apply Forall_nil_2]; cbn [fst snd].
  - by split_and!; [reflexivity|eexists|reflexivity].
  - destruct body; cbn [Server.handleChat].
    + rewrite sendJSON_fresh by done.
      by split_and!; [reflexivity|eexists|reflexivity].
    + rewrite sendError_fresh by done.
      by split_and!; [reflexivity|eexists|reflexivity].
  - destruct body as [req|e]; cbn [Server.handleCommand].
    + destruct (HandleCommand _ _ _ _ _) as [[out s'] w'].
      destruct out; cbn [fst]; unfold Server.sendResponse;
        rewrite ?sendError_fresh, ?sendJSON_fresh by done;
        by split_and!; [reflexivity|eexists|reflexivity].
    + cbn [fst]. rewrite sendError_fresh by done.
      by split_and!; [reflexivity|eexists|reflexivity].
Qed.

End ClientAndAnswers.

(** X27 for a GET request and a body that does not decode. *)
Lemma cors_headers_reach_every_answer_witness :
  Server.Status <$>
    [ (Server.corsMiddleware (λ _ rw st, (Server.handleHealth rw, st))
         "GET" Server.fresh tt).1;
      (Server.corsMiddleware
         (λ _ rw st, (Server.handleChat (Err "EOF") rw, st))
         "GET" Server.fresh tt).1 ] = [Some 200; Some 400]
  ∧ Forall (λ rw, length (Server.Written rw) = 1%nat)
      [ (Server.corsMiddleware (λ _ rw st, (Server.handleHealth rw, st))
           "GET" Server.fresh tt).1;
        (Server.corsMiddleware
           (λ _ rw st, (Server.handleChat (Err "EOF") rw, st))
           "GET" Server.fresh tt).1;
        (Server.corsMiddleware
           (λ _ rw st,
              let '(rw', s', w') :=
                Server.handleCommand (Err "EOF") rw st.1 st.2 in
              (rw', (s', w')))
           "GET" Server.fresh (Demo.s0, Demo.w0)).1 ].
Proof.
  split; [reflexivity|].
  assert (Hmethod : "GET" ≠ "OPTIONS") by discriminate.
  pose proof (cors_headers_reach_every_answer (Err "EOF") "GET"
                Demo.s0 Demo.w0 Hmethod) as H.
  cbv zeta in H. eapply Forall_impl; [exact H|].
  intros rw (_ & _ & Hone). exact Hone.
Defined.

(** * The further properties on the small machine *)

Lemma demo_no_terminal_phrase :
  ¬ has_terminal_phrase Demo.rt "add a readme".
Proof. rewrite <- isTerminalIntent_spec. by vm_compute. Qed.

Lemma demo_terminal_phrase : has_terminal_phrase Demo.rt "execute ls".
Proof. apply isTerminalIntent_spec. by vm_compute. Qed.

(** X2 on a planning task: it ends with a result. *)
Lemma executeTask_result_iff_terminal_witness :
  Status (Demo.plan_task "t1" "add a readme") = TaskPending
  ∧ Result (Demo.plan_task "t1" "add a readme") = None
  ∧ is_Some (Result (ExecuteTask (Demo.plan_task "t1" "add a readme")
                       Demo.s0 Demo.w0).1.1.2).
Proof.
  split; [reflexivity|]. split; [reflexivity|].
  pose proof (executeTask_result_iff_terminal
                (Demo.plan_task "t1" "add a readme") Demo.s0 Demo.w0
                eq_refl eq_refl) as H.
  set (run := ExecuteTask _ _ _) in *.
  assert (Hstatus : Status run.1.1.2 = TaskCompleted)
    by (vm_compute; reflexivity).
  destruct run as [[[out task'] s'] w'].
  destruct H as ([_ Hresult] & _). apply Hresult. by left.
Defined.

(** X3 on a chain of three tasks with different ids whose second task
    fails hard: the third comes back as it was given. *)
Lemma executeChain_shape_witness :
  NoDup (ID <$> [Demo.plan_task "t1" "add a readme";
                 Demo.explain_task "t2" "main.go";
                 Demo.plan_task "t3" "add tests"])
  ∧ (ExecuteTaskChain [Demo.plan_task "t1" "add a readme";
                       Demo.explain_task "t2" "main.go";
                       Demo.plan_task "t3" "add tests"]
       Demo.s0 Demo.w0).1.1.2 !! 2%nat =
      Some (Demo.plan_task "t3" "add tests").
Proof.
  assert (Hnodup : NoDup (ID <$> [Demo.plan_task "t1" "add a readme";
                                  Demo.explain_task "t2" "main.go";
                                  Demo.plan_task "t3" "add tests"])).
  { apply (bool_decide_unpack _). vm_compute. exact I. }
  split; [exact Hnodup|].
  pose proof (executeChain_shape
                [Demo.plan_task "t1" "add a readme";
                 Demo.explain_task "t2" "main.go";
                 Demo.plan_task "t3" "add tests"] Demo.s0 Demo.w0) as H.
  set (run := ExecuteTaskChain _ _ _) in *.
  assert (Hrs : run.1.1.1 = ([Demo.plan_result], Some Demo.missing_request))
    by (vm_compute; reflexivity).
  destruct run as [[[[rs e] tasks'] s'] w'].
  injection Hrs as -> ->.
  destruct H as (_ & _ & _ & _ & _ & Hrest).
  specialize (Hrest Hnodup). cbn [length Nat.add] in Hrest.
  cbn [fst snd]. rewrite <- (Nat.add_0_r 2), <- lookup_drop, Hrest.
  reflexivity.
Defined.

(** X4 on a chain of two planning tasks with different ids. *)
Lemma executeChain_results_stored_witness :
  NoDup (ID <$> [Demo.plan_task "t1" "add a readme";
                 Demo.plan_task "t3" "add tests"])
  ∧ GetTaskResult "t3"
      (ExecuteTaskChain [Demo.plan_task "t1" "add a readme";
                         Demo.plan_task "t3" "add tests"]
         Demo.s0 Demo.w0).1.2 = Some Demo.plan_result.
Proof.
  assert (Hnodup : NoDup (ID <$> [Demo.plan_task "t1" "add a readme";
                                  Demo.plan_task "t3" "add tests"])).
  { apply (bool_decide_unpack _). vm_compute. exact I. }
  split; [exact Hnodup|].
  pose proof (executeChain_results_stored
                [Demo.plan_task "t1" "add a readme";
                 Demo.plan_task "t3" "add tests"] Demo.s0 Demo.w0 Hnodup) as H.
  set (run := ExecuteTaskChain _ _ _) in *.
  assert (Hrs : run.1.1.1.1 !! 1 = Some Demo.plan_result)
    by (vm_compute; reflexivity).
  destruct run as [[[[rs e] tasks'] s'] w'].
  exact (H 1 Demo.plan_result (Demo.plan_task "t3" "add tests") Hrs eq_refl).
Defined.

(** X6 on the same two tasks: the consumer leaves them Completed. *)
Lemma chain_agrees_with_consumer_witness :
  Status <$> (processTasks [Demo.plan_task "t1" "add a readme";
                            Demo.plan_task "t3" "add tests"]
                Demo.s0 Demo.w0).1.1 = [TaskCompleted; TaskCompleted].
Proof.
  pose proof (chain_agrees_with_consumer
                [Demo.plan_task "t1" "add a readme";
                 Demo.plan_task "t3" "add tests"] Demo.s0 Demo.w0) as H.
  set (run := ExecuteTaskChain _ _ _) in *.
  assert (Hrs : run.1.1.1 = ([Demo.plan_result; Demo.plan_result], None))
    by (vm_compute; reflexivity).
  assert (Hstatus : Status <$> run.1.1.2 = [TaskCompleted; TaskCompleted])
    by (vm_compute; reflexivity).
  destruct run as [[[[rs e] tasks'] s'] w'].
  injection Hrs as -> ->.
  rewrite H; [exact Hstatus | reflexivity | by repeat constructor].
Defined.


(** X10 on a language model that answers with an HTML page. *)
Lemma project_plan_parse_failure_keeps_raw_text_witness :
  ∃ message,
    (PlanningAgentImpl_Execute Demo.rt DemoMore.llm_bad_json
       (Demo.plan_task "t1" "/create-project a blog") Demo.w0).1 = Err message
    ∧ contains message "<html>Bad Gateway</html>"
    ∧ contains message "unexpected end of JSON input".
Proof.
  exact (project_plan_parse_failure_keeps_raw_text DemoMore.llm_bad_json
           (Demo.plan_task "t1" "/create-project a blog") Demo.w0
           "/create-project a blog" "<html>Bad Gateway</html>"
           "unexpected end of JSON input" eq_refl eq_refl eq_refl eq_refl).
Defined.

(** X11 on a debug task. *)
Lemma debug_agent_behaviour_witness :
  (DebugAgentImpl_Execute Demo.rt Demo.llm (DemoMore.fix_task "t6" "/ws")
     Demo.w0).1 =
    Ok {| Success := true;
          ResultData := {[ "analysis" := VString "nil pointer dereference";
                           "fix" := VString "[]"; "file" := VString "" ]};
          Error := "" |}.
Proof.
  pose proof (debug_agent_behaviour Demo.llm (DemoMore.fix_task "t6" "/ws")
                Demo.w0 "undefined: x" eq_refl) as H.
  destruct (DebugAgentImpl_Execute _ _ _ _) as [out w'].
  destruct H as (_ & _ & H). cbn in H. destruct H as (messages & _ & H).
  exact H.
Defined.

(** X12 on two debug tasks that differ in id and workspace directory. *)
Lemma debug_agent_ignores_workspace_witness :
  DebugAgentImpl_Execute Demo.rt Demo.llm (DemoMore.fix_task "t6" "/ws")
    Demo.w0 =
  DebugAgentImpl_Execute Demo.rt Demo.llm (DemoMore.fix_task "t7" "/elsewhere")
    Demo.w0.
Proof.
  exact (debug_agent_ignores_workspace Demo.llm
           (DemoMore.fix_task "t6" "/ws") (DemoMore.fix_task "t7" "/elsewhere")
           Demo.w0 eq_refl).
Defined.


(** X14 on an update of a file that is not there: the error of the file
    manager is the error of the result. *)
Lemma file_agent_file_errors_are_soft_witness :
  (FileAgentImpl_Execute Demo.rt (NewFileManager Demo.rt)
     (Demo.file_update_task "t3" "absent.go") Demo.w0).1 =
    Ok (soft_failure Demo.missing_file)
  ∧ (UpdateFile Demo.rt (NewFileManager Demo.rt) "/ws/absent.go"
       "package agent" Demo.w0).1 = Some Demo.missing_file.
Proof.
  assert (Hin : "update" ∈ ["create"; "update"; "delete"; "read"])
    by (rewrite !elem_of_cons; tauto).
  destruct (file_agent_file_errors_are_soft (NewFileManager Demo.rt)
              (Demo.file_update_task "t3" "absent.go") Demo.w0
              "update" "absent.go" "/ws" eq_refl Hin eq_refl eq_refl
              (λ _, mk_is_Some _ _ eq_refl))
    as (r & w' & Hexec & _ & _ & Hfail & _).
  rewrite Hexec. split; [|reflexivity].
  cbn [fst]. f_equal. apply Hfail. reflexivity.
Defined.

(** X15 on a create task without content: the new file is empty. *)
Lemma create_without_content_is_empty_file_witness :
  w_os (FileAgentImpl_Execute Demo.rt (NewFileManager Demo.rt)
          (DemoMore.create_task "t9" "new.go") Demo.w0).2 !! "/ws/new.go" =
    Some "".
Proof.
  rewrite (create_without_content_is_empty_file (NewFileManager Demo.rt)
             (DemoMore.create_task "t9" "new.go") Demo.w0 eq_refl eq_refl).
  vm_compute. reflexivity.
Defined.

(** X16 on the machine that refuses [os.Stat]. *)
Lemma stat_failure_counts_as_existing_witness :
  FileManagerImpl_FileExists DemoMore.rt_denied "/root/secret"
    DemoMore.w_denied = true
  ∧ (FileManagerImpl_UpdateFile DemoMore.rt_denied "/root/secret" "x"
       DemoMore.w_denied).1 = Some "open /root/secret: permission denied".
Proof.
  destruct (stat_failure_counts_as_existing (rt := DemoMore.rt_denied)
              "/root/secret" "x" DemoMore.w_denied _ eq_refl eq_refl)
    as [Hexists Hupdate].
  split; [exact Hexists|]. rewrite Hupdate. reflexivity.
Defined.

(** X20 on a request with the phrase [execute]. *)
Lemma route_terminal_equals_run_witness :
  (ProcessUserRequest "execute ls" "/ws" Demo.s0 Demo.w0).1.1 =
    (HandleCommand "/run" "execute ls" "/ws" Demo.s0 Demo.w0).1.1.
Proof.
  exact (proj1 (route_terminal_equals_run Demo.llm Demo.s0 Demo.w0
                  "execute ls" "/ws" demo_standard demo_terminal_phrase)).
Defined.

(** X21 on a request without a terminal phrase. *)
Lemma route_planning_outcomes_witness :
  shell_runs (w_io (ProcessUserRequest "add a readme" "/ws"
                      Demo.s0 Demo.w0).2) = [].
Proof.
  pose proof (route_planning_outcomes Demo.llm Demo.s0 Demo.w0
                "add a readme" "/ws" demo_standard demo_no_terminal_phrase)
    as H.
  destruct (ProcessUserRequest _ _ _ _) as [[out s'] w'].
  destruct H as (_ & Hruns & _). exact Hruns.
Defined.

(** X23 for [/explain] through the command endpoint. *)
Lemma command_endpoint_errors_witness :
  Server.Status (Server.handleCommand
                   (Ok (DemoMore.command_request "/explain" "main.go"))
                   Server.fresh Demo.s0 Demo.w0).1.1 = Some 500.
Proof.
  pose proof (command_endpoint_errors Demo.llm
                (DemoMore.command_request "/explain" "main.go")
                Demo.s0 Demo.w0 demo_standard) as H.
  destruct (Server.handleCommand _ _ _ _) as [[rw s'] w'].
  destruct H as [Hplan _]. destruct (Hplan (or_introl eq_refl)) as [H _].
  exact H.
Defined.

(** X24 for a preflight request: the wrapped handler is not called. *)
Lemma corsMiddleware_behaviour_witness :
  Server.Status Server.fresh = None
  ∧ Server.Written
      (Server.corsMiddleware DemoMore.health_handler "OPTIONS"
         Server.fresh tt).1 = []
  ∧ Server.Status
      (Server.corsMiddleware DemoMore.health_handler "OPTIONS"
         Server.fresh tt).1 = Some 200.
Proof.
  split; [reflexivity|].
  destruct (corsMiddleware_behaviour DemoMore.health_handler "OPTIONS"
              Server.fresh tt eq_refl) as (rw3 & _ & _ & Hwritten & ->).
  split; reflexivity.
Defined.

(** X25 with the Groq service out of reach. *)
Lemma run_endpoint_with_groq_witness :
  Server.Written
    (Server.handleCommand (Ok (DemoMore.command_request "/run" "list files"))
       Server.fresh (DemoMore.s_groq DemoMore.api_down) Demo.w0).1.1 =
    [Server.BodyResponse
       {| Server.RespSuccess := false; Server.RespData := ∅;
          Server.RespError :=
            "failed to generate command: failed to create chat completion: connection refused" |}].
Proof.
  pose proof (run_endpoint_with_groq DemoMore.api_down DemoMore.groq
                (DemoMore.command_request "/run" "list files")
                (DemoMore.s_groq DemoMore.api_down) Demo.w0
                eq_refl eq_refl) as H.
  destruct (Server.handleCommand _ _ _ _) as [[rw s'] w'].
  cbn in H. destruct H as (_ & H & _). exact H.
Defined.
